(** * haul: the [start] command (src/commands/start.js)

    A shallow embedding of the development-server launcher and of its
    command-line option table, with the properties of its configuration
    selection, its error handling and its callbacks.

    The launcher is effectful JavaScript.  Its effects (console clearing,
    logging, calls into webpack, the server factory and the shell) are
    recorded in a chronological trace; exceptions are a second outcome next
    to the normal return.  The collaborators that live outside this file
    (node's [fs], [path] and [process], [makeReactNativeConfig], [webpack],
    [createServer], [exec]) are the fields of a [Host] record. *)

From Stdlib Require Import String Ascii List ZArith Bool Lia.
From Stdlib Require Import DecimalString DecimalPos DecimalFacts.
Import ListNotations.
Local Open Scope string_scope.
Local Open Scope list_scope.
Local Open Scope Z_scope.

(** ** JavaScript built-ins used by the command *)

Module Js.

(** [String(b)] for a boolean. *)
Definition String_of_bool (b : bool) : string :=
  if b then "true" else "false".

(** Template-literal conversion of a number.  Ports are integral; a safe
    integer (of magnitude below 2^53) is rendered by JavaScript in plain
    decimal, with a leading minus sign when negative.  The conversion is
    exact on that range only: the statements that depend on the digits
    assume it. *)
Definition String_of_number (n : Z) : string :=
  NilZero.string_of_int (Z.to_int n).

(** [arr.includes(x)] on an array of strings. *)
Fixpoint includes (arr : list string) (x : string) : bool :=
  match arr with
  | [] => false
  | y :: ys => if String.eqb y x then true else includes ys x
  end.

(** [arr.indexOf(x)]: the first index holding [x], or [-1]. *)
Fixpoint indexOf_from (i : Z) (arr : list string) (x : string) : Z :=
  match arr with
  | [] => -1
  | y :: ys => if String.eqb y x then i else indexOf_from (i + 1) ys x
  end.

Definition indexOf (arr : list string) (x : string) : Z :=
  indexOf_from 0 arr x.

(** [arr[i]] for an integral [i]: [None] stands for [undefined], which is
    what an index outside the array yields. *)
Definition get {A : Type} (arr : list A) (i : Z) : option A :=
  if i <? 0 then None else nth_error arr (Z.to_nat i).

(** Template-literal conversion of a possibly undefined string. *)
Definition String_of_env (x : option string) : string :=
  match x with
  | None => "undefined"
  | Some s => s
  end.

(** Truthiness of a possibly undefined string, as tested by [x ? a : b]. *)
Definition truthy (x : option string) : bool :=
  match x with
  | None => false
  | Some s => negb (String.eqb s "")
  end.

End Js.

(** ** Effects: a trace of events and an outcome *)

(** The four logger levels the command uses. *)
Inductive Level := info | warn | error | done.

(** How a JavaScript computation ends. *)
Inductive Outcome (E A : Type) :=
| Returned (a : A)
| Threw (e : E).
Arguments Returned {E A} a.
Arguments Threw {E A} e.

(** An effectful computation: the events it performed, oldest first, and
    how it ended.  Events performed before a [throw] stay in the trace. *)
Definition Eff (Ev E A : Type) : Type := list Ev * Outcome E A.

Definition ret {Ev E A} (a : A) : Eff Ev E A := ([], Returned a).

Definition throw {Ev E A} (e : E) : Eff Ev E A := ([], Threw e).

Definition bind {Ev E A B} (m : Eff Ev E A) (k : A -> Eff Ev E B) : Eff Ev E B :=
  match m with
  | (t, Returned a) => let (t', r) := k a in (t ++ t', r)
  | (t, Threw e) => (t, Threw e)
  end.

(** [try { m } catch (error) { handler error }] *)
Definition try_catch {Ev E A} (m : Eff Ev E A) (handler : E -> Eff Ev E A) : Eff Ev E A :=
  match m with
  | (t, Returned a) => (t, Returned a)
  | (t, Threw e) => let (t', r) := handler e in (t ++ t', r)
  end.

(** One observable event [ev] whose result [r] is decided outside. *)
Definition perform {Ev E A} (ev : Ev) (r : Outcome E A) : Eff Ev E A := ([ev], r).

Definition trace {Ev E A} (m : Eff Ev E A) : list Ev := fst m.
Definition outcome {Ev E A} (m : Eff Ev E A) : Outcome E A := snd m.

Declare Scope eff_scope.
Delimit Scope eff_scope with eff.
Notation "x <- m ;; k" := (bind m (fun x => k))
  (at level 61, m at next level, right associativity) : eff_scope.
Notation "m ;; k" := (bind m (fun _ => k))
  (at level 61, right associativity) : eff_scope.
Local Open Scope eff_scope.

(** ** The launcher *)

Section Launcher.

(** Values owned by the collaborators: the module exported by
    [webpack.haul.js], one webpack configuration, the value of its [entry]
    property, the compiler and server handles, the build statistics, and
    whatever a collaborator throws or rejects with. *)
Context {RawConfig PlatformConfig Entry Compiler App Stats Thrown : Type}.

(** [c.entry] *)
Variable entry : PlatformConfig -> Entry.

(** [stats.hasErrors()] *)
Variable hasErrors : Stats -> bool.

(** [opts], as the command-line layer hands it to the action. *)
Record LaunchOptions := {
  host : string;
  port : Z;
  dev : bool;
  minify : bool;
  platform : string
}.

(** The values the variable [config] can hold: the array returned by
    [makeReactNativeConfig], one element of it, or [undefined] (an index
    outside the array). *)
Inductive ConfigValue :=
| Configs (cs : list PlatformConfig)
| Config (c : PlatformConfig)
| Undefined.

(** The calls into [../messages], kept symbolic: which message function
    is called and on which properties.  [MessageError] comes from
    [../errors]; [TypeError] is the engine's. *)
Inductive Message :=
| webpackConfigNotFound (directory : string)
| bundleBuilding (didHaveIssues : bool)
| bundleFailed
| bundleBuilt (stats : Stats) (platform : string)
| commandSuccess (command : string)
| commandFailed (command : string) (error : Exn)
| initialStartInformation (entries : list Entry) (host : string) (port : Z)
with Exn :=
| MessageError (message : Message)
| TypeError
| Foreign (e : Thrown).

(** The three arrow functions of [start], each with the variables of the
    enclosing scope that its body reads, indexed by what it is called on:
    [didHaveIssues], [stats], or nothing.  Their bodies are [onBuildStart],
    [onBuildComplete] and [onListening] below. *)
Inductive Callback : Type -> Type :=
| BuildStarted : Callback bool
| BuildFinished (opts : LaunchOptions) : Callback Stats
| Listening (config : ConfigValue) (opts : LaunchOptions) : Callback unit.

Inductive Event :=
| Require (path : string)
| MakeReactNativeConfig (raw : RawConfig) (root : string) (dev minify : bool)
| Clear
| Webpack (config : ConfigValue)
| CreateServer (compiler : Compiler)
               (onBuildStart : Callback bool) (onBuildComplete : Callback Stats)
| Exec (command : string)
| Log (level : Level) (message : Message)
| Listen (app : App) (port : Z) (host : string) (callback : Callback unit).

Definition M (A : Type) : Type := Eff Event Exn A.

(** What the process and the required modules answer: [process.cwd()],
    [process.env.ANDROID_HOME], [fs.existsSync], [path.join] and
    [path.basename], the dynamic [require], and the collaborators, each of
    which returns or throws.  [makeReactNativeConfig] returns the pair
    [[config, platforms]] of an array of configurations and an array of
    platform names, which [start] destructures. *)
Record Host := {
  cwd : string;
  ANDROID_HOME : option string;
  existsSync : string -> bool;
  join : string -> string -> string;
  basename : string -> string;
  require : string -> Outcome Exn RawConfig;
  makeReactNativeConfig :
    RawConfig -> string -> bool -> bool ->
    Outcome Exn (list PlatformConfig * list string);
  webpack : ConfigValue -> Outcome Exn Compiler;
  createServer : Compiler -> Callback bool -> Callback Stats -> Outcome Exn App;
  exec : string -> Outcome Exn unit;
  listen : App -> Z -> string -> Callback unit -> Outcome Exn unit
}.

Variable h : Host.

Definition clear : M unit := perform Clear (Returned tt).

Definition logger (l : Level) (m : Message) : M unit :=
  perform (Log l m) (Returned tt).

(** [didHaveIssues => { ... }] *)
Definition onBuildStart (didHaveIssues : bool) : M unit :=
  clear ;;
  if didHaveIssues
  then logger warn (bundleBuilding didHaveIssues)
  else logger info (bundleBuilding didHaveIssues).

(** [stats => { ... }] *)
Definition onBuildComplete (opts : LaunchOptions) (stats : Stats) : M unit :=
  clear ;;
  if hasErrors stats
  then logger error bundleFailed
  else logger done (bundleBuilt stats (platform opts)).

(** [Array.isArray(config) ? config.map(c => c.entry) : [config.entry]];
    reading a property of [undefined] throws. *)
Definition entries_of (config : ConfigValue) : M (list Entry) :=
  match config with
  | Configs cs => ret (map entry cs)
  | Config c => ret [entry c]
  | Undefined => throw TypeError
  end.

(** [() => { logger.info(messages.initialStartInformation({...})) }] *)
Definition onListening (config : ConfigValue) (opts : LaunchOptions) : M unit :=
  entries <- entries_of config ;;
  logger info (initialStartInformation entries (host opts) (port opts)).

(** Calling one of the three arrow functions. *)
Definition invoke {A : Type} (callback : Callback A) : A -> M unit :=
  match callback in Callback A return A -> M unit with
  | BuildStarted => onBuildStart
  | BuildFinished opts => onBuildComplete opts
  | Listening config opts => fun _ => onListening config opts
  end.

(** [config[platforms.indexOf(opts.platform)]] *)
Definition config_at (config : list PlatformConfig) (i : Z) : ConfigValue :=
  match Js.get config i with
  | Some c => Config c
  | None => Undefined
  end.

(** Lines 47-49: the value of [config] after the platform filter. *)
Definition select (config : list PlatformConfig) (platforms : list string)
           (opts : LaunchOptions) : ConfigValue :=
  if negb (String.eqb (platform opts) "all") && Js.includes platforms (platform opts)
  then config_at config (Js.indexOf platforms (platform opts))
  else Configs config.

(** [`reverse tcp:${opts.port} tcp:${opts.port}`] *)
Definition adb_args (opts : LaunchOptions) : string :=
  ("reverse tcp:" ++ Js.String_of_number (port opts)
     ++ " tcp:" ++ Js.String_of_number (port opts))%string.

(** [process.env.ANDROID_HOME ? `${process.env.ANDROID_HOME}/platform-tools/adb` : 'adb'] *)
Definition adb_path : string :=
  if Js.truthy (ANDROID_HOME h)
  then (Js.String_of_env (ANDROID_HOME h) ++ "/platform-tools/adb")%string
  else "adb".

(** Lines 81-102: [adb reverse] on Android. *)
Definition adb_reverse (opts : LaunchOptions) : M unit :=
  if String.eqb (platform opts) "android" then
    let args := adb_args opts in
    let adb := adb_path in
    try_catch
      (perform (Exec (adb ++ " " ++ args)%string) (exec h (adb ++ " " ++ args)%string) ;;
       logger info (commandSuccess (basename h adb ++ " " ++ args)%string))
      (fun error =>
         logger warn (commandFailed (basename h adb ++ " " ++ args)%string error))
  else ret tt.

(** [async function start(opts)] *)
Definition start (opts : LaunchOptions) : M unit :=
  let directory := cwd h in
  let configPath := join h directory "webpack.haul.js" in
  if negb (existsSync h configPath) then
    throw (MessageError (webpackConfigNotFound directory))
  else
    raw <- perform (Require configPath) (require h configPath) ;;
    made <- perform (MakeReactNativeConfig raw directory (dev opts) (minify opts))
                    (makeReactNativeConfig h raw directory (dev opts) (minify opts)) ;;
    let config := select (fst made) (snd made) opts in
    clear ;;
    compiler <- perform (Webpack config) (webpack h config) ;;
    app <- perform (CreateServer compiler BuildStarted (BuildFinished opts))
                   (createServer h compiler BuildStarted (BuildFinished opts)) ;;
    adb_reverse opts ;;
    perform (Listen app (port opts) (host opts) (Listening config opts))
            (listen h app (port opts) (host opts) (Listening config opts)).

(** *** How far a run gets

    [start] reaches line 47 when the configuration file exists and both
    [require] and [makeReactNativeConfig] return; it reaches line 80 when,
    in addition, [webpack] and [createServer] return. *)

Definition configPath : string := join h (cwd h) "webpack.haul.js".

Definition loads (opts : LaunchOptions) (raw : RawConfig)
           (config : list PlatformConfig) (platforms : list string) : Prop :=
  existsSync h configPath = true /\
  require h configPath = Returned raw /\
  makeReactNativeConfig h raw (cwd h) (dev opts) (minify opts)
    = Returned (config, platforms).

Definition serves (opts : LaunchOptions) (raw : RawConfig)
           (config : list PlatformConfig) (platforms : list string)
           (compiler : Compiler) (app : App) : Prop :=
  loads opts raw config platforms /\
  webpack h (select config platforms opts) = Returned compiler /\
  createServer h compiler BuildStarted (BuildFinished opts) = Returned app.

End Launcher.

Arguments Configs {PlatformConfig} cs.
Arguments Config {PlatformConfig} c.
Arguments Undefined {PlatformConfig}.

(** ** The option table (lines 134-165: [dev] and [minify]) *)

Module Options.

Record Choice := { value : string; choice_description : string }.

(** [default] is either a string or a function of the options resolved so
    far, of which the function in this file reads [dev]. *)
Inductive Default :=
| Literal (s : string)
| Computed (f : bool -> string).

Record FlagOption := {
  name : string;
  description : string;
  default : Default;
  parse : string -> bool;
  choices : list Choice
}.

(** [(val: string) => val !== 'false'] *)
Definition not_false (val : string) : bool := negb (String.eqb val "false").

Definition dev : FlagOption := {|
  name := "dev";
  description := "Whether to build in development mode";
  default := Literal "true";
  parse := not_false;
  choices :=
    [ {| value := "true"; choice_description := "Builds in development mode" |};
      {| value := "false"; choice_description := "Builds in production mode" |} ]
|}.

Definition minify : FlagOption := {|
  name := "minify";
  description := "Whether to minify the bundle, 'true' by default when dev=false";
  default := Computed (fun dev => Js.String_of_bool (negb dev));
  parse := not_false;
  choices :=
    [ {| value := "true"; choice_description := "Enables minification for the bundle" |};
      {| value := "false"; choice_description := "Disables minification for the bundle" |} ]
|}.

(** The string an option falls back to when the command line does not
    supply it, given the resolved [dev]. *)
Definition default_value (o : FlagOption) (resolved_dev : bool) : string :=
  match default o with
  | Literal s => s
  | Computed f => f resolved_dev
  end.

End Options.

(** ** A concrete host: one project directory on a POSIX machine *)

Module Posix.

(** [path.join(dir, file)] for a normalized absolute [dir] other than the
    root and a plain file name: the two parts around one separator. *)
Definition join (dir file : string) : string := (dir ++ "/" ++ file)%string.

Fixpoint after_last_slash (s acc : string) : string :=
  match s with
  | EmptyString => acc
  | String c rest =>
      if Ascii.eqb c "/"
      then after_last_slash rest EmptyString
      else after_last_slash rest (acc ++ String c EmptyString)%string
  end.

(** [path.basename(p)] for a path that does not end in a separator. *)
Definition basename (p : string) : string := after_last_slash p EmptyString.

End Posix.

Module Demo.

(** A project with the two platforms of React Native; a configuration is
    identified by its entry file, a statistics object by whether the
    build failed. *)
Definition entry (c : string) : string := c.
Definition hasErrors (stats : bool) : bool := stats.

Definition configs : list string := ["./index.ios.js"; "./index.android.js"].
Definition platforms : list string := ["ios"; "android"].

Definition DemoHost : Type := @Host unit string string unit unit bool string.

(** [webpack.haul.js] is present, no device is attached ([adb] fails). *)
Definition project : DemoHost := {|
  cwd := "/home/dev/app";
  ANDROID_HOME := Some "/opt/android-sdk";
  existsSync := fun p => String.eqb p "/home/dev/app/webpack.haul.js";
  join := Posix.join;
  basename := Posix.basename;
  require := fun _ => Returned tt;
  makeReactNativeConfig := fun _ _ _ _ => Returned (configs, platforms);
  webpack := fun _ => Returned tt;
  createServer := fun _ _ _ => Returned tt;
  exec := fun _ => Threw (Foreign "error: no devices/emulators found");
  listen := fun _ _ _ _ => Returned tt
|}.

(** The same machine with a device attached and no [ANDROID_HOME]. *)
Definition project_with_device : DemoHost := {|
  cwd := "/home/dev/app";
  ANDROID_HOME := None;
  existsSync := fun p => String.eqb p "/home/dev/app/webpack.haul.js";
  join := Posix.join;
  basename := Posix.basename;
  require := fun _ => Returned tt;
  makeReactNativeConfig := fun _ _ _ _ => Returned (configs, platforms);
  webpack := fun _ => Returned tt;
  createServer := fun _ _ _ => Returned tt;
  exec := fun _ => Returned tt;
  listen := fun _ _ _ _ => Returned tt
|}.

(** A directory without [webpack.haul.js]. *)
Definition empty_directory : DemoHost := {|
  cwd := "/tmp/empty";
  ANDROID_HOME := None;
  existsSync := fun _ => false;
  join := Posix.join;
  basename := Posix.basename;
  require := fun _ => Threw TypeError;
  makeReactNativeConfig := fun _ _ _ _ => Threw TypeError;
  webpack := fun _ => Threw TypeError;
  createServer := fun _ _ _ => Threw TypeError;
  exec := fun _ => Threw TypeError;
  listen := fun _ _ _ _ => Threw TypeError
|}.

Definition options (p : string) : LaunchOptions := {|
  host := "127.0.0.1";
  port := 8081;
  dev := true;
  minify := false;
  platform := p
|}.

End Demo.

(** ** Hosts on which one collaborator fails *)

Module Faults.

Inductive Stage :=
| AtRequire | AtMakeReactNativeConfig | AtWebpack | AtCreateServer | AtListen.

Definition same_stage (a b : Stage) : bool :=
  match a, b with
  | AtRequire, AtRequire
  | AtMakeReactNativeConfig, AtMakeReactNativeConfig
  | AtWebpack, AtWebpack
  | AtCreateServer, AtCreateServer
  | AtListen, AtListen => true
  | _, _ => false
  end.

(** What the collaborator of stage [here] answers when the one of stage
    [broken] is the failing one. *)
Definition answer {A : Type} (broken here : Stage) (a : A)
  : Outcome (@Exn string bool string) A :=
  if same_stage broken here then Threw (Foreign "boom") else Returned a.

(** The project of [Demo.project_with_device], with the collaborator of
    stage [broken] throwing. *)
Definition broken_at (broken : Stage) : Demo.DemoHost := {|
  cwd := "/home/dev/app";
  ANDROID_HOME := None;
  existsSync := fun p => String.eqb p "/home/dev/app/webpack.haul.js";
  join := Posix.join;
  basename := Posix.basename;
  require := fun _ => answer broken AtRequire tt;
  makeReactNativeConfig := fun _ _ _ _ =>
    answer broken AtMakeReactNativeConfig (Demo.configs, Demo.platforms);
  webpack := fun _ => answer broken AtWebpack tt;
  createServer := fun _ _ _ => answer broken AtCreateServer tt;
  exec := fun _ => Returned tt;
  listen := fun _ _ _ _ => answer broken AtListen tt
|}.

(** A project whose [makeReactNativeConfig] returns one configuration for
    two platforms. *)
Definition misaligned : Demo.DemoHost := {|
  cwd := "/home/dev/app";
  ANDROID_HOME := None;
  existsSync := fun p => String.eqb p "/home/dev/app/webpack.haul.js";
  join := Posix.join;
  basename := Posix.basename;
  require := fun _ => Returned tt;
  makeReactNativeConfig := fun _ _ _ _ => Returned (["./index.ios.js"], Demo.platforms);
  webpack := fun _ => Returned tt;
  createServer := fun _ _ _ => Returned tt;
  exec := fun _ => Returned tt;
  listen := fun _ _ _ _ => Returned tt
|}.

End Faults.

(** ** Decimal numerals, read independently of how they are printed *)

Module Numeral.

(** The value of a decimal digit: the distance of its character code
    from the code of ["0"], when within nine. *)
Definition digit (c : ascii) : option Z :=
  let code := Z.of_N (N_of_ascii c) in
  if (48 <=? code) && (code <=? 57) then Some (code - 48) else None.

(** The number written by a run of digits, most significant first, that
    follows the digits worth [acc]. *)
Fixpoint read (s : string) (acc : Z) : option Z :=
  match s with
  | EmptyString => Some acc
  | String c rest =>
      match digit c with
      | Some d => read rest (10 * acc + d)
      | None => None
      end
  end.

(** [s] is the decimal numeral of the natural number [n]: one digit at
    least, digits only, no leading zero but in ["0"] itself, worth [n]. *)
Definition natural (s : string) (n : Z) : bool :=
  match s with
  | EmptyString => false
  | String "0" rest => String.eqb rest "" && (n =? 0)
  | _ => match read s 0 with
         | Some v => v =? n
         | None => false
         end
  end.

(** [s] is the decimal numeral of the integer [n]: the numeral of a
    natural number, after a minus sign for a negative one. *)
Definition integer (s : string) (n : Z) : bool :=
  match s with
  | String "-" digits => (n <? 0) && natural digits (- n)
  | _ => (0 <=? n) && natural s n
  end.

End Numeral.

(** ** Options away from the defaults *)

Module Custom.

Definition android_on_3000 : LaunchOptions := {|
  host := "0.0.0.0";
  port := 3000;
  dev := false;
  minify := true;
  platform := "android"
|}.

End Custom.

(** * Properties *)

(** ** Evaluation on the concrete host *)

Example String_of_number_8081 : Js.String_of_number 8081 = "8081".
Proof. reflexivity. Qed.

Example String_of_number_0 : Js.String_of_number 0 = "0".
Proof. reflexivity. Qed.

Example indexOf_android : Js.indexOf ["ios"; "android"] "android" = 1.
Proof. reflexivity. Qed.

Example indexOf_absent : Js.indexOf ["ios"; "android"] "web" = -1.
Proof. reflexivity. Qed.

Example basename_sdk_adb :
  Posix.basename "/opt/android-sdk/platform-tools/adb" = "adb".
Proof. reflexivity. Qed.

Example start_ios_scenario :
  trace (start Demo.project (Demo.options "ios")) =
  [ Require "/home/dev/app/webpack.haul.js";
    MakeReactNativeConfig tt "/home/dev/app" true false;
    Clear;
    Webpack (Config "./index.ios.js");
    CreateServer tt BuildStarted (BuildFinished (Demo.options "ios"));
    Listen tt 8081 "127.0.0.1"
           (Listening (Config "./index.ios.js") (Demo.options "ios")) ].
Proof. reflexivity. Qed.

Example start_all_scenario :
  trace (start Demo.project (Demo.options "all")) =
  [ Require "/home/dev/app/webpack.haul.js";
    MakeReactNativeConfig tt "/home/dev/app" true false;
    Clear;
    Webpack (Configs Demo.configs);
    CreateServer tt BuildStarted (BuildFinished (Demo.options "all"));
    Listen tt 8081 "127.0.0.1"
           (Listening (Configs Demo.configs) (Demo.options "all")) ].
Proof. reflexivity. Qed.

Example start_android_without_device :
  start Demo.project (Demo.options "android") =
  ([ Require "/home/dev/app/webpack.haul.js";
     MakeReactNativeConfig tt "/home/dev/app" true false;
     Clear;
     Webpack (Config "./index.android.js");
     CreateServer tt BuildStarted (BuildFinished (Demo.options "android"));
     Exec "/opt/android-sdk/platform-tools/adb reverse tcp:8081 tcp:8081";
     Log warn (commandFailed "adb reverse tcp:8081 tcp:8081"
                             (Foreign "error: no devices/emulators found"));
     Listen tt 8081 "127.0.0.1"
            (Listening (Config "./index.android.js") (Demo.options "android")) ],
   Returned tt).
Proof. reflexivity. Qed.

Example start_android_on_3000 :
  trace (start Demo.project Custom.android_on_3000) =
  [ Require "/home/dev/app/webpack.haul.js";
    MakeReactNativeConfig tt "/home/dev/app" false true;
    Clear;
    Webpack (Config "./index.android.js");
    CreateServer tt BuildStarted (BuildFinished Custom.android_on_3000);
    Exec "/opt/android-sdk/platform-tools/adb reverse tcp:3000 tcp:3000";
    Log warn (commandFailed "adb reverse tcp:3000 tcp:3000"
                            (Foreign "error: no devices/emulators found"));
    Listen tt 3000 "0.0.0.0"
           (Listening (Config "./index.android.js") Custom.android_on_3000) ].
Proof. reflexivity. Qed.

(** ** Arrays of platform names *)

Lemma includes_In (arr : list string) (x : string) :
  Js.includes arr x = true <-> In x arr.
Proof.
  induction arr as [|y ys IH]; simpl.
  - split; [discriminate | contradiction].
  - destruct (String.eqb_spec y x) as [->|Hne].
    + split; auto.
    + rewrite IH. split; [auto | intros [Heq|Hin]; [contradiction | exact Hin]].
Qed.

Lemma includes_false (arr : list string) (x : string) :
  Js.includes arr x = false <-> ~ In x arr.
Proof.
  rewrite <- includes_In. destruct (Js.includes arr x); split; congruence.
Qed.

(** [indexOf] finds the first position of a member. *)
Lemma indexOf_from_first (arr : list string) (x : string) (i : Z) :
  In x arr ->
  exists n : nat,
    Js.indexOf_from i arr x = i + Z.of_nat n /\
    (n < length arr)%nat /\
    nth_error arr n = Some x /\
    (forall m, (m < n)%nat -> nth_error arr m <> Some x).
Proof.
  revert i. induction arr as [|y ys IH]; intros i Hin; [contradiction|].
  simpl. destruct (String.eqb_spec y x) as [->|Hne].
  - exists 0%nat. repeat split; simpl; try lia.
  - destruct Hin as [Heq|Hin]; [contradiction|].
    destruct (IH (i + 1) Hin) as (n & Hidx & Hlen & Hnth & Hfirst).
    exists (S n). repeat split; simpl; try lia; auto.
    intros [|m] Hm; simpl.
    + congruence.
    + apply Hfirst. lia.
Qed.

Lemma indexOf_first (arr : list string) (x : string) :
  In x arr ->
  exists n : nat,
    Js.indexOf arr x = Z.of_nat n /\
    (n < length arr)%nat /\
    nth_error arr n = Some x /\
    (forall m, (m < n)%nat -> nth_error arr m <> Some x).
Proof.
  intros Hin. destruct (indexOf_from_first arr x 0 Hin) as (n & H & Hrest).
  exists n. split; [exact H | exact Hrest].
Qed.

Lemma get_of_nat {A : Type} (arr : list A) (n : nat) :
  Js.get arr (Z.of_nat n) = nth_error arr n.
Proof.
  unfold Js.get. destruct (Z.ltb_spec (Z.of_nat n) 0); [lia|].
  now rewrite Nat2Z.id.
Qed.

(** ** Numbers in template literals *)

Example numeral_3000 : Numeral.integer "3000" 3000 = true.
Proof. reflexivity. Qed.

Example numeral_other_port : Numeral.integer "8081" 3000 = false.
Proof. reflexivity. Qed.

Example numeral_leading_zero : Numeral.integer "03000" 3000 = false.
Proof. reflexivity. Qed.

Lemma read_digit (c : ascii) (k : Z) (rest : string) (acc : Z) :
  Numeral.digit c = Some k ->
  Numeral.read (String c rest) acc = Numeral.read rest (10 * acc + k).
Proof. intros Hdigit. cbn [Numeral.read]. now rewrite Hdigit. Qed.

(** Reading one more digit, its value computed. *)
Ltac read_one_digit :=
  erewrite read_digit by reflexivity;
  match goal with
  | |- Numeral.read _ (10 * _ + ?k) = _ =>
      let k' := eval cbv in k in change k with k'
  end.

Lemma read_string_of_uint_acc (d : Decimal.uint) (acc : positive) :
  Numeral.read (NilEmpty.string_of_uint d) (Z.pos acc)
  = Some (Z.pos (Pos.of_uint_acc d acc)).
Proof.
  revert acc. induction d; intros acc;
    cbn [NilEmpty.string_of_uint Pos.of_uint_acc];
    try reflexivity;
    read_one_digit;
    match goal with
    | |- Numeral.read _ ?v = Some (Z.pos (Pos.of_uint_acc _ ?q)) =>
        replace v with (Z.pos q) by lia
    end; apply IHd.
Qed.

Lemma read_string_of_uint (d : Decimal.uint) :
  Numeral.read (NilEmpty.string_of_uint d) 0 = Some (Z.of_N (Pos.of_uint d)).
Proof.
  induction d; cbn [NilEmpty.string_of_uint Pos.of_uint];
    try reflexivity;
    read_one_digit;
    try exact IHd; apply (read_string_of_uint_acc d).
Qed.

Lemma to_uint_leading_digit (p : positive) (d : Decimal.uint) :
  Pos.to_uint p <> Decimal.D0 d.
Proof.
  pose proof (DecimalPos.Unsigned.to_of (Pos.to_uint p)) as Hnorm.
  rewrite DecimalPos.Unsigned.of_to in Hnorm.
  change (N.to_uint (Npos p)) with (Pos.to_uint p) in Hnorm.
  intros Hzero. rewrite Hzero, unorm_D0 in Hnorm.
  unfold Decimal.unorm in Hnorm.
  destruct (Decimal.nzhead d) eqn:Hhead;
    try (symmetry in Hnorm; exact (nzhead_nonzero _ _ (eq_trans Hhead Hnorm))).
  apply (DecimalPos.Unsigned.to_uint_nonzero p). now rewrite Hzero.
Qed.

Lemma natural_of_positive (p : positive) :
  Numeral.natural (NilZero.string_of_uint (Pos.to_uint p)) (Z.pos p) = true.
Proof.
  pose proof (DecimalPos.Unsigned.of_to p) as Hvalue.
  pose proof (to_uint_leading_digit p) as Hlead.
  pose proof (DecimalPos.Unsigned.to_uint_nonnil p) as Hnil.
  pose proof (read_string_of_uint (Pos.to_uint p)) as Hread.
  rewrite Hvalue in Hread.
  destruct (Pos.to_uint p) as [|d|d|d|d|d|d|d|d|d|d];
    [contradiction | now elim (Hlead d) | ..];
    unfold Numeral.natural, NilZero.string_of_uint;
    cbn [NilEmpty.string_of_uint] in Hread |- *; rewrite Hread; apply Z.eqb_refl.
Qed.

Lemma String_of_number_numeral (n : Z) :
  Numeral.integer (Js.String_of_number n) n = true.
Proof.
  destruct n as [|p|p]; [reflexivity | |].
  - unfold Js.String_of_number. simpl.
    pose proof (natural_of_positive p) as Hnat.
    pose proof (to_uint_leading_digit p) as Hlead.
    pose proof (DecimalPos.Unsigned.to_uint_nonnil p) as Hnil.
    destruct (Pos.to_uint p) as [|d|d|d|d|d|d|d|d|d|d];
      [contradiction | now elim (Hlead d) | ..]; exact Hnat.
  - unfold Js.String_of_number. simpl. apply natural_of_positive.
Qed.

(** A string that reads as a number is the printing of a run of digits. *)
Lemma read_digits_only (s : string) (acc v : Z) :
  Numeral.read s acc = Some v ->
  exists d, NilEmpty.string_of_uint d = s.
Proof.
  revert acc. induction s as [|c rest IH]; intros acc Hread.
  - exists Decimal.Nil. reflexivity.
  - cbn [Numeral.read] in Hread.
    destruct (Numeral.digit c) as [k|] eqn:Hdigit; [|discriminate].
    destruct (IH _ Hread) as (d & <-).
    destruct c as [[|] [|] [|] [|] [|] [|] [|] [|]];
      cbv in Hdigit; try discriminate Hdigit;
      first [ exists (Decimal.D0 d); reflexivity | exists (Decimal.D1 d); reflexivity
            | exists (Decimal.D2 d); reflexivity | exists (Decimal.D3 d); reflexivity
            | exists (Decimal.D4 d); reflexivity | exists (Decimal.D5 d); reflexivity
            | exists (Decimal.D6 d); reflexivity | exists (Decimal.D7 d); reflexivity
            | exists (Decimal.D8 d); reflexivity | exists (Decimal.D9 d); reflexivity ].
Qed.

(** A run of digits without a leading zero is the printing of its value. *)
Lemma to_uint_of_uint_headed (d : Decimal.uint) :
  d <> Decimal.Nil ->
  (forall d', d <> Decimal.D0 d') ->
  N.to_uint (Pos.of_uint d) = d.
Proof.
  intros Hnil Hzero. rewrite DecimalPos.Unsigned.to_of.
  destruct d; try reflexivity.
  - contradiction.
  - now elim (Hzero d).
Qed.

(** The numeral of a natural number is determined by the number. *)
Lemma natural_canonical (s : string) (n : Z) :
  Numeral.natural s n = true ->
  s = NilZero.string_of_uint (N.to_uint (Z.to_N n)).
Proof.
  intros H. destruct s as [|c rest]; [discriminate|].
  destruct (Ascii.eqb_spec c "0") as [->|Hc].
  - cbn [Numeral.natural] in H.
    apply andb_true_iff in H. destruct H as (Hrest & Hn).
    apply String.eqb_eq in Hrest. apply Z.eqb_eq in Hn. subst. reflexivity.
  - assert (Hnat : Numeral.natural (String c rest) n =
                   match Numeral.read (String c rest) 0 with
                   | Some v => v =? n
                   | None => false
                   end).
    { destruct c as [[|] [|] [|] [|] [|] [|] [|] [|]];
        try reflexivity; now elim Hc. }
    rewrite Hnat in H. clear Hnat.
    destruct (Numeral.read (String c rest) 0) as [v|] eqn:Hread; [|discriminate].
    apply Z.eqb_eq in H. subst v.
    destruct (read_digits_only _ _ _ Hread) as (d & Hd).
    rewrite <- Hd in Hread. rewrite read_string_of_uint in Hread.
    injection Hread as <-. rewrite N2Z.id.
    assert (Hnil : d <> Decimal.Nil) by (intros ->; discriminate Hd).
    assert (Hzero : forall d', d <> Decimal.D0 d').
    { intros d' ->. simpl in Hd. injection Hd as <- _. now elim Hc. }
    rewrite (to_uint_of_uint_headed d Hnil Hzero). rewrite <- Hd.
    destruct d; try reflexivity. contradiction.
Qed.

Lemma natural_unique (s s' : string) (n : Z) :
  Numeral.natural s n = true -> Numeral.natural s' n = true -> s = s'.
Proof.
  intros H H'. apply natural_canonical in H, H'. congruence.
Qed.

(** The numeral of an integer is determined by the integer. *)
Lemma integer_unique (s s' : string) (n : Z) :
  Numeral.integer s n = true -> Numeral.integer s' n = true -> s = s'.
Proof.
  assert (Hcases : forall t,
             Numeral.integer t n = true ->
             (n < 0 /\ exists digits, t = String "-" digits /\
                                   Numeral.natural digits (- n) = true) \/
             (0 <= n /\ Numeral.natural t n = true)).
  { intros t Ht. unfold Numeral.integer in Ht.
    destruct t as [|c rest].
    - apply andb_true_iff in Ht. destruct Ht as (Hn & Ht).
      right. split; [now apply Z.leb_le | exact Ht].
    - destruct (Ascii.eqb_spec c "-") as [->|Hc].
      + apply andb_true_iff in Ht. destruct Ht as (Hn & Ht).
        left. split; [now apply Z.ltb_lt|]. exists rest. auto.
      + assert (Ht' : (0 <=? n) && Numeral.natural (String c rest) n = true).
        { destruct c as [[|] [|] [|] [|] [|] [|] [|] [|]];
            try exact Ht; now elim Hc. }
        apply andb_true_iff in Ht'. destruct Ht' as (Hn & Ht').
        right. split; [now apply Z.leb_le | exact Ht']. }
  intros H H'. apply Hcases in H, H'.
  destruct H as [(Hn & digits & -> & Hd)|(Hn & Hs)];
    destruct H' as [(Hn' & digits' & -> & Hd')|(Hn' & Hs')]; try lia.
  - f_equal. exact (natural_unique _ _ _ Hd Hd').
  - exact (natural_unique _ _ _ Hs Hs').
Qed.

Lemma append_assoc (s t u : string) :
  ((s ++ t) ++ u)%string = (s ++ t ++ u)%string.
Proof. induction s as [|c s IH]; simpl; [reflexivity | now rewrite IH]. Qed.

(** ** The effect monad *)

Lemma trace_bind_returned {Ev E A B} (m : Eff Ev E A) (k : A -> Eff Ev E B) t a :
  m = (t, Returned a) ->
  bind m k = (t ++ trace (k a), outcome (k a)).
Proof. intros ->. simpl. now destruct (k a). Qed.

Lemma trace_bind_threw {Ev E A B} (m : Eff Ev E A) (k : A -> Eff Ev E B) t e :
  m = (t, Threw e) ->
  bind m k = (t, Threw e).
Proof. now intros ->. Qed.

Lemma eff_eta {Ev E A} (m : Eff Ev E A) : m = (trace m, outcome m).
Proof. now destruct m. Qed.

(** ** The launcher *)

Section LauncherFacts.

Context {RawConfig PlatformConfig Entry Compiler App Stats Thrown : Type}.
Variable entry : PlatformConfig -> Entry.
Variable hasErrors : Stats -> bool.
Variable h : @Host RawConfig PlatformConfig Entry Compiler App Stats Thrown.

Local Abbreviation command_line opts :=
  (adb_path h ++ " " ++ adb_args opts)%string.
Local Abbreviation command_name opts :=
  (basename h (adb_path h) ++ " " ++ adb_args opts)%string.
Local Abbreviation call :=
  (@invoke RawConfig PlatformConfig Entry Compiler App Stats Thrown entry hasErrors).

(** The port-forward step always returns; what it logs depends on how
    [exec] ends. *)
Lemma adb_reverse_android (opts : LaunchOptions) :
  platform opts = "android" ->
  adb_reverse h opts =
  ([ Exec (command_line opts);
     match exec h (command_line opts) with
     | Returned _ => Log info (commandSuccess (command_name opts))
     | Threw e => Log warn (commandFailed (command_name opts) e)
     end ],
   Returned tt).
Proof.
  intros Handroid. unfold adb_reverse. rewrite Handroid. simpl.
  unfold perform. destruct (exec h _) as [[]|e]; reflexivity.
Qed.

Lemma adb_reverse_other (opts : LaunchOptions) :
  platform opts <> "android" ->
  adb_reverse h opts = ([], Returned tt).
Proof.
  intros Hother. unfold adb_reverse.
  destruct (String.eqb_spec (platform opts) "android"); [contradiction | reflexivity].
Qed.

Lemma adb_reverse_returns (opts : LaunchOptions) :
  outcome (adb_reverse h opts) = Returned tt.
Proof.
  destruct (string_dec (platform opts) "android") as [Ha|Ha].
  - now rewrite adb_reverse_android.
  - now rewrite adb_reverse_other.
Qed.

Arguments adb_reverse : simpl never.

(** Without the configuration file nothing happens but the throw. *)
Lemma start_missing (opts : LaunchOptions) :
  existsSync h (configPath h) = false ->
  start h opts = ([], Threw (MessageError (webpackConfigNotFound (cwd h)))).
Proof.
  intros Hmissing. unfold start. fold (configPath h). now rewrite Hmissing.
Qed.

(** A run that gets past the configuration, by the outcomes of [webpack]
    and [createServer]. *)
Lemma start_loaded opts raw config platforms :
  loads h opts raw config platforms ->
  start h opts =
  let selected := select config platforms opts in
  let loaded :=
    [ Require (configPath h);
      MakeReactNativeConfig raw (cwd h) (dev opts) (minify opts);
      Clear;
      Webpack selected ] in
  match webpack h selected with
  | Threw e => (loaded, Threw e)
  | Returned compiler =>
      let created := CreateServer compiler BuildStarted (BuildFinished opts) in
      match createServer h compiler BuildStarted (BuildFinished opts) with
      | Threw e => (loaded ++ [created], Threw e)
      | Returned app =>
          let listening := Listening selected opts in
          (loaded ++ [created] ++ trace (adb_reverse h opts)
             ++ [Listen app (port opts) (host opts) listening],
           listen h app (port opts) (host opts) listening)
      end
  end.
Proof.
  intros (Hexists & Hrequire & Hmake).
  unfold start. fold (configPath h). rewrite Hexists. simpl.
  rewrite Hrequire, Hmake. simpl.
  destruct (webpack h _) as [compiler|e]; [|reflexivity].
  destruct (createServer h compiler _ _) as [app|e]; [|reflexivity].
  rewrite (eff_eta (adb_reverse h opts)), adb_reverse_returns. simpl.
  reflexivity.
Qed.

(** A run that gets as far as the server. *)
Lemma start_served opts raw config platforms compiler app :
  serves h opts raw config platforms compiler app ->
  start h opts =
  ([ Require (configPath h);
     MakeReactNativeConfig raw (cwd h) (dev opts) (minify opts);
     Clear;
     Webpack (select config platforms opts);
     CreateServer compiler BuildStarted (BuildFinished opts) ]
     ++ trace (adb_reverse h opts)
     ++ [ Listen app (port opts) (host opts)
                 (Listening (select config platforms opts) opts) ],
   listen h app (port opts) (host opts)
          (Listening (select config platforms opts) opts)).
Proof.
  intros (Hloads & Hwebpack & Hserver).
  rewrite (start_loaded _ _ _ _ Hloads). simpl.
  now rewrite Hwebpack, Hserver.
Qed.

(** Only the port-forward step executes commands. *)
Lemma start_exec_from_adb (opts : LaunchOptions) (command : string) :
  In (Exec command) (trace (start h opts)) ->
  In (Exec command) (trace (adb_reverse h opts)).
Proof.
  unfold start.
  destruct (existsSync h _); simpl; [|contradiction].
  destruct (require h _) as [raw|e]; simpl; [|intros [H|[]]; discriminate].
  destruct (makeReactNativeConfig h _ _ _ _) as [made|e]; simpl;
    [|intros [H|[H|[]]]; discriminate].
  destruct (webpack h _) as [compiler|e]; simpl;
    [|intros [H|[H|[H|[H|[]]]]]; discriminate].
  destruct (createServer h compiler _ _) as [app|e]; simpl;
    [|intros [H|[H|[H|[H|[H|[]]]]]]; discriminate].
  rewrite (eff_eta (adb_reverse h opts)), adb_reverse_returns. simpl.
  intros [H|[H|[H|[H|[H|H]]]]]; try discriminate.
  apply in_app_or in H. destruct H as [H|[H|[]]]; [exact H | discriminate].
Qed.

(** What the port-forward step can leave in the trace. *)
Lemma adb_reverse_events (opts : LaunchOptions) (ev : Event) :
  In ev (trace (adb_reverse h opts)) ->
  platform opts = "android" /\
  (ev = Exec (command_line opts) \/ exists l m, ev = Log l m).
Proof.
  destruct (string_dec (platform opts) "android") as [Ha|Ha].
  - rewrite (adb_reverse_android _ Ha). simpl.
    intros [H|[H|[]]]; split; auto.
    right. destruct (exec h _); eauto.
  - rewrite (adb_reverse_other _ Ha). simpl. contradiction.
Qed.

(** [webpack] is called once, on the value left in [config] by the
    platform filter. *)
Lemma start_webpack_once opts raw config platforms (passed : ConfigValue) :
  loads h opts raw config platforms ->
  In (Webpack passed) (trace (start h opts)) <->
  passed = select config platforms opts.
Proof.
  intros Hloads. rewrite (start_loaded _ _ _ _ Hloads). simpl.
  destruct (webpack h _) as [compiler|e];
    [destruct (createServer h compiler _ _) as [app|e]|]; simpl.
  - split.
    + intros [H|[H|[H|[H|[H|H]]]]]; try discriminate; try congruence.
      apply in_app_or in H. destruct H as [H|[H|[]]]; [|discriminate].
      apply adb_reverse_events in H.
      destruct H as (_ & [H|(l & m & H)]); discriminate.
    + intros ->. auto 6.
  - split.
    + intros [H|[H|[H|[H|[H|[]]]]]]; try discriminate; congruence.
    + intros ->. auto 6.
  - split.
    + intros [H|[H|[H|[H|[]]]]]; try discriminate; congruence.
    + intros ->. auto 6.
Qed.

Lemma select_present (config : list PlatformConfig) platforms opts :
  platform opts <> "all" ->
  In (platform opts) platforms ->
  select config platforms opts =
  config_at config (Js.indexOf platforms (platform opts)).
Proof.
  intros Hall Hin. unfold select.
  destruct (String.eqb_spec (platform opts) "all"); [contradiction|].
  apply includes_In in Hin. now rewrite Hin.
Qed.

Lemma select_absent (config : list PlatformConfig) platforms opts :
  platform opts = "all" \/ ~ In (platform opts) platforms ->
  select config platforms opts = Configs config.
Proof.
  intros [Hall|Hout]; unfold select.
  - now rewrite Hall.
  - apply includes_false in Hout. rewrite Hout. now rewrite andb_false_r.
Qed.

(** C1. When the requested platform is not ["all"] and occurs in the
    platform list returned by [makeReactNativeConfig], the one value handed
    to [webpack] is [config[i]], where [i] is the first index at which the
    platform occurs in the platform list; it is never the whole array, and
    when the array has an element for every platform it is that single
    configuration. *)
Theorem start_passes_config_at_platform_index opts raw config platforms :
  loads h opts raw config platforms ->
  platform opts <> "all" ->
  In (platform opts) platforms ->
  exists i : nat,
    Js.indexOf platforms (platform opts) = Z.of_nat i /\
    nth_error platforms i = Some (platform opts) /\
    (forall j, (j < i)%nat -> nth_error platforms j <> Some (platform opts)) /\
    (forall passed,
        In (Webpack passed) (trace (start h opts)) <->
        passed = match nth_error config i with
                 | Some c => Config c
                 | None => Undefined
                 end) /\
    (forall passed,
        In (Webpack passed) (trace (start h opts)) -> passed <> Configs config) /\
    (length config = length platforms ->
     exists c, nth_error config i = Some c /\
               In (Webpack (Config c)) (trace (start h opts))).
Proof.
  intros Hloads Hall Hin.
  destruct (indexOf_first platforms (platform opts) Hin)
    as (i & Hidx & Hlen & Hnth & Hfirst).
  assert (Hsel : select config platforms opts =
                 match nth_error config i with
                 | Some c => Config c
                 | None => Undefined
                 end).
  { rewrite select_present by assumption.
    unfold config_at. now rewrite Hidx, get_of_nat. }
  exists i. repeat split; auto.
  - intros Hpassed. apply (start_webpack_once _ _ _ _ _ Hloads) in Hpassed.
    congruence.
  - intros ->. apply (start_webpack_once _ _ _ _ _ Hloads). congruence.
  - intros passed Hpassed. apply (start_webpack_once _ _ _ _ _ Hloads) in Hpassed.
    rewrite Hpassed, Hsel. destruct (nth_error config i); discriminate.
  - intros Haligned.
    destruct (nth_error config i) as [c|] eqn:Hc.
    + exists c. split; [reflexivity|].
      apply (start_webpack_once _ _ _ _ _ Hloads). congruence.
    + apply nth_error_None in Hc. lia.
Qed.

(** C2. When the requested platform is ["all"], or does not occur in the
    platform list, the one value handed to [webpack] is the array returned
    by [makeReactNativeConfig], unchanged; the run does not throw for it. *)
Theorem start_passes_all_configs opts raw config platforms :
  loads h opts raw config platforms ->
  platform opts = "all" \/ ~ In (platform opts) platforms ->
  (forall passed,
      In (Webpack passed) (trace (start h opts)) <-> passed = Configs config) /\
  (forall compiler app,
      webpack h (Configs config) = Returned compiler ->
      createServer h compiler BuildStarted (BuildFinished opts) = Returned app ->
      outcome (start h opts) =
      listen h app (port opts) (host opts) (Listening (Configs config) opts)).
Proof.
  intros Hloads Hcase.
  pose proof (select_absent config platforms opts Hcase) as Hsel.
  split.
  - intros passed. rewrite (start_webpack_once _ _ _ _ _ Hloads). now rewrite Hsel.
  - intros compiler app Hwebpack Hserver.
    rewrite (start_served opts raw config platforms compiler app).
    + now rewrite Hsel.
    + unfold serves. rewrite Hsel. auto.
Qed.

(** C3. When [webpack.haul.js] does not exist in the current working
    directory, [start] throws a [MessageError] whose message is
    [webpackConfigNotFound] of that directory, and it has done nothing
    before: no [require], no [makeReactNativeConfig], no [webpack], no
    [createServer]. *)
Theorem start_throws_without_config_file (opts : LaunchOptions) :
  existsSync h (join h (cwd h) "webpack.haul.js") = false ->
  outcome (start h opts) = Threw (MessageError (webpackConfigNotFound (cwd h))) /\
  trace (start h opts) = [] /\
  (forall path, ~ In (Require path) (trace (start h opts))) /\
  (forall raw root d m,
      ~ In (MakeReactNativeConfig raw root d m) (trace (start h opts))) /\
  (forall config, ~ In (Webpack config) (trace (start h opts))) /\
  (forall compiler f g, ~ In (CreateServer compiler f g) (trace (start h opts))).
Proof.
  intros Hmissing. rewrite (start_missing opts Hmissing). simpl.
  repeat split; auto.
Qed.

(** C4. On Android, however [exec] ends, the port-forward step returns
    normally and [start] goes on to [app.listen(port, host, ...)]: the
    outcome of [start] is the outcome of [listen].  When [exec] fails with
    [e], the whole run is the five launch events, the command, one warning
    [commandFailed] carrying [e], and the listen call. *)
Theorem adb_failure_does_not_stop_listen opts raw config platforms compiler app :
  serves h opts raw config platforms compiler app ->
  platform opts = "android" ->
  outcome (adb_reverse h opts) = Returned tt /\
  outcome (start h opts) =
    listen h app (port opts) (host opts)
           (Listening (select config platforms opts) opts) /\
  In (Listen app (port opts) (host opts)
             (Listening (select config platforms opts) opts))
     (trace (start h opts)) /\
  (forall e,
      exec h (command_line opts) = Threw e ->
      trace (start h opts) =
      [ Require (configPath h);
        MakeReactNativeConfig raw (cwd h) (dev opts) (minify opts);
        Clear;
        Webpack (select config platforms opts);
        CreateServer compiler BuildStarted (BuildFinished opts);
        Exec (command_line opts);
        Log warn (commandFailed (command_name opts) e);
        Listen app (port opts) (host opts)
               (Listening (select config platforms opts) opts) ]).
Proof.
  intros Hserves Handroid.
  rewrite (start_served _ _ _ _ _ _ Hserves).
  rewrite (adb_reverse_android _ Handroid). simpl.
  repeat split.
  - auto 10.
  - intros e He. now rewrite He.
Qed.

(** C5. On Android, for a port that is a safe integer, the arguments
    built are ["reverse tcp:P tcp:P"] with [P] the one decimal numeral of
    the port, and the one command executed is those arguments appended,
    after a space, to the adb path: the bare ["adb"] when [ANDROID_HOME] is
    unset or empty, [<ANDROID_HOME>/platform-tools/adb] otherwise. *)
Theorem adb_command_is_reverse_tcp opts raw config platforms compiler app :
  serves h opts raw config platforms compiler app ->
  platform opts = "android" ->
  - 2 ^ 53 < port opts < 2 ^ 53 ->
  exists P : string,
    Numeral.integer P (port opts) = true /\
    (forall Q, Numeral.integer Q (port opts) = true -> Q = P) /\
    adb_args opts = ("reverse tcp:" ++ P ++ " tcp:" ++ P)%string /\
    (ANDROID_HOME h = None \/ ANDROID_HOME h = Some "" ->
     forall command,
       In (Exec command) (trace (start h opts)) <->
       command = ("adb reverse tcp:" ++ P ++ " tcp:" ++ P)%string) /\
    (forall home,
        ANDROID_HOME h = Some home ->
        home <> "" ->
        forall command,
          In (Exec command) (trace (start h opts)) <->
          command =
            (home ++ "/platform-tools/adb reverse tcp:" ++ P ++ " tcp:" ++ P)%string).
Proof.
  intros Hserves Handroid Hsafe.
  assert (Hexec : forall command,
             In (Exec command) (trace (start h opts)) <->
             command = (adb_path h ++ " " ++ adb_args opts)%string).
  { intros command. split.
    - intros Hin. apply start_exec_from_adb in Hin.
      apply adb_reverse_events in Hin.
      destruct Hin as (_ & [H|(l & m & H)]); [|discriminate].
      now injection H.
    - intros ->. rewrite (start_served _ _ _ _ _ _ Hserves).
      rewrite (adb_reverse_android _ Handroid). simpl. auto 10. }
  exists (Js.String_of_number (port opts)).
  split; [apply String_of_number_numeral|].
  split; [intros Q HQ; exact (integer_unique _ _ _ HQ (String_of_number_numeral _))|].
  split; [reflexivity|]. split.
  - intros Hhome command. rewrite Hexec.
    assert (Hadb : adb_path h = "adb").
    { unfold adb_path. destruct Hhome as [-> | ->]; reflexivity. }
    rewrite Hadb. reflexivity.
  - intros home Hhome Hnonempty command. rewrite Hexec.
    assert (Hadb : adb_path h = (home ++ "/platform-tools/adb")%string).
    { unfold adb_path. rewrite Hhome. simpl.
      destruct (String.eqb_spec home ""); [contradiction | reflexivity]. }
    rewrite Hadb, append_assoc. reflexivity.
Qed.

(** The callbacks a run hands over are the three arrow functions. *)
Lemma start_registers_callbacks opts raw config platforms compiler app :
  serves h opts raw config platforms compiler app ->
  In (CreateServer compiler BuildStarted (BuildFinished opts)) (trace (start h opts)) /\
  In (Listen app (port opts) (host opts)
             (Listening (select config platforms opts) opts))
     (trace (start h opts)).
Proof.
  intros Hserves. rewrite (start_served _ _ _ _ _ _ Hserves). simpl. split.
  - auto 6.
  - do 5 right. apply in_or_app. right. now left.
Qed.

(** The build-start callback: a warning when the previous build had
    issues, an information otherwise. *)
Lemma onBuildStart_clears_then_reports (didHaveIssues : bool) :
  call BuildStarted didHaveIssues =
  ([Clear; Log (if didHaveIssues then warn else info) (bundleBuilding didHaveIssues)],
   Returned tt).
Proof. now destruct didHaveIssues. Qed.

(** With [config] undefined the listen callback reads a property of
    [undefined]: it throws before it logs. *)
Lemma onListening_undefined (opts : LaunchOptions) :
  call (Listening Undefined opts) tt = ([], Threw TypeError).
Proof. reflexivity. Qed.

(** C7. The callback given to [listen] logs one [info] message,
    [initialStartInformation], carrying the host, the port and the entry
    points: [c.entry] for each [c] of the array when [config] is an array,
    the one [config.entry] when it is a single configuration.  In ["all"]
    mode with two configurations it carries two entry points. *)
Theorem listening_logs_startup_summary opts raw config platforms compiler app :
  serves h opts raw config platforms compiler app ->
  In (Listen app (port opts) (host opts)
             (Listening (select config platforms opts) opts))
     (trace (start h opts)) /\
  (forall cs,
      select config platforms opts = Configs cs ->
      call (Listening (select config platforms opts) opts) tt =
      ([Log info (initialStartInformation (map entry cs) (host opts) (port opts))],
       Returned tt)) /\
  (forall c,
      select config platforms opts = Config c ->
      call (Listening (select config platforms opts) opts) tt =
      ([Log info (initialStartInformation [entry c] (host opts) (port opts))],
       Returned tt)) /\
  (forall c1 c2,
      platform opts = "all" ->
      config = [c1; c2] ->
      call (Listening (select config platforms opts) opts) tt =
      ([Log info (initialStartInformation [entry c1; entry c2]
                                          (host opts) (port opts))],
       Returned tt)).
Proof.
  intros Hserves. rewrite (start_served _ _ _ _ _ _ Hserves). simpl.
  repeat split.
  - do 5 right. apply in_or_app. right. now left.
  - intros cs ->. reflexivity.
  - intros c ->. reflexivity.
  - intros c1 c2 Hall ->. rewrite select_absent by now left. reflexivity.
Qed.

(** C8. For every [stats], the build-completion callback clears the
    screen and then logs exactly one message: [bundleFailed] at error level
    when [stats.hasErrors()] holds, and otherwise [bundleBuilt] at done
    level, carrying [stats] and the requested platform.  An error-level
    message is logged if and only if the stats report errors. *)
Theorem onBuildComplete_clears_then_reports (opts : LaunchOptions) (stats : Stats) :
  call (BuildFinished opts) stats =
    ([ Clear;
       if hasErrors stats
       then Log error bundleFailed
       else Log done (bundleBuilt stats (platform opts)) ],
     Returned tt) /\
  ((exists m, In (Log error m) (trace (call (BuildFinished opts) stats))) <->
   hasErrors stats = true) /\
  (In (Log done (bundleBuilt stats (platform opts))) (trace (call (BuildFinished opts) stats)) <->
   hasErrors stats = false).
Proof.
  simpl. unfold onBuildComplete. simpl. destruct (hasErrors stats); simpl.
  - repeat split; eauto.
    + intros [H|[H|[]]]; discriminate.
    + discriminate.
  - repeat split; auto.
    + intros (m & [H|[H|[]]]); discriminate.
    + discriminate.
Qed.

(** C10. A command is executed only when the requested platform is
    exactly ["android"]; in ["all"] mode no command is executed. *)
Theorem exec_only_for_android (opts : LaunchOptions) :
  (forall command,
      In (Exec command) (trace (start h opts)) -> platform opts = "android") /\
  (platform opts = "all" ->
   forall command, ~ In (Exec command) (trace (start h opts))).
Proof.
  assert (Honly : forall command,
             In (Exec command) (trace (start h opts)) -> platform opts = "android").
  { intros command Hexec. apply start_exec_from_adb in Hexec.
    now apply adb_reverse_events in Hexec. }
  split; [exact Honly|].
  intros Hall command Hexec. apply Honly in Hexec. congruence.
Qed.

End LauncherFacts.

(** ** The option table *)

Lemma not_false_spec (val : string) :
  Options.not_false val = true <-> val <> "false".
Proof.
  unfold Options.not_false.
  destruct (String.eqb_spec val "false"); simpl; split; congruence.
Qed.

(** C6. The default of [minify] is the string of the negation of the
    resolved [dev]: ["false"] for [dev = true], ["true"] for [dev = false];
    parsed by the option's own parser it gives back [!dev]. *)
Theorem minify_default_negates_dev :
  Options.default_value Options.minify true = "false" /\
  Options.default_value Options.minify false = "true" /\
  forall resolved_dev : bool,
    Options.default_value Options.minify resolved_dev
      = Js.String_of_bool (negb resolved_dev) /\
    Options.parse Options.minify (Options.default_value Options.minify resolved_dev)
      = negb resolved_dev.
Proof.
  repeat split; destruct resolved_dev; reflexivity.
Qed.

(** C9. The parser of [dev] and of [minify] answers [true] exactly for
    the strings other than ["false"]; so ["0"], ["no"], ["False"] and the
    empty string all parse to [true]. *)
Theorem flag_parser_true_unless_false :
  (forall val : string,
      (Options.parse Options.dev val = true <-> val <> "false") /\
      (Options.parse Options.minify val = true <-> val <> "false")) /\
  Options.parse Options.dev "false" = false /\
  Options.parse Options.minify "false" = false /\
  (forall val : string,
      In val ["0"; "no"; "False"; ""] ->
      Options.parse Options.dev val = true /\
      Options.parse Options.minify val = true).
Proof.
  split; [|split; [reflexivity|split; [reflexivity|]]].
  - intros val. split; apply not_false_spec.
  - intros val Hin. simpl in Hin.
    destruct Hin as [<-|[<-|[<-|[<-|[]]]]]; split; reflexivity.
Qed.

(** ** The theorems at work on the concrete host *)

Lemma start_passes_config_at_platform_index_witness :
  loads Demo.project (Demo.options "android") tt Demo.configs Demo.platforms /\
  platform (Demo.options "android") <> "all" /\
  In (platform (Demo.options "android")) Demo.platforms /\
  exists i : nat,
    Js.indexOf Demo.platforms "android" = Z.of_nat i /\
    nth_error Demo.platforms i = Some "android" /\
    (forall j, (j < i)%nat -> nth_error Demo.platforms j <> Some "android") /\
    (forall passed,
        In (Webpack passed) (trace (start Demo.project (Demo.options "android"))) <->
        passed = match nth_error Demo.configs i with
                 | Some c => Config c
                 | None => Undefined
                 end) /\
    (forall passed,
        In (Webpack passed) (trace (start Demo.project (Demo.options "android"))) ->
        passed <> Configs Demo.configs) /\
    (length Demo.configs = length Demo.platforms ->
     exists c, nth_error Demo.configs i = Some c /\
               In (Webpack (Config c))
                  (trace (start Demo.project (Demo.options "android")))).
Proof.
  assert (Hloads : loads Demo.project (Demo.options "android") tt
                         Demo.configs Demo.platforms)
    by (repeat split; reflexivity).
  assert (Hall : platform (Demo.options "android") <> "all")
    by (simpl; discriminate).
  assert (Hin : In (platform (Demo.options "android")) Demo.platforms)
    by (simpl; auto).
  split; [exact Hloads|]. split; [exact Hall|]. split; [exact Hin|].
  exact (start_passes_config_at_platform_index
           Demo.project (Demo.options "android") tt Demo.configs Demo.platforms
           Hloads Hall Hin).
Defined.

Lemma start_passes_all_configs_witness :
  loads Demo.project (Demo.options "web") tt Demo.configs Demo.platforms /\
  (platform (Demo.options "web") = "all" \/
   ~ In (platform (Demo.options "web")) Demo.platforms) /\
  (forall passed,
      In (Webpack passed) (trace (start Demo.project (Demo.options "web"))) <->
      passed = Configs Demo.configs).
Proof.
  assert (Hloads : loads Demo.project (Demo.options "web") tt
                         Demo.configs Demo.platforms)
    by (repeat split; reflexivity).
  assert (Hcase : platform (Demo.options "web") = "all" \/
                  ~ In (platform (Demo.options "web")) Demo.platforms).
  { right. simpl. intros [H|[H|[]]]; discriminate. }
  split; [exact Hloads|]. split; [exact Hcase|].
  exact (proj1 (start_passes_all_configs
                  Demo.project (Demo.options "web") tt Demo.configs Demo.platforms
                  Hloads Hcase)).
Defined.

Lemma start_throws_without_config_file_witness :
  existsSync Demo.empty_directory
             (join Demo.empty_directory (cwd Demo.empty_directory) "webpack.haul.js")
    = false /\
  outcome (start Demo.empty_directory (Demo.options "ios"))
    = Threw (MessageError (webpackConfigNotFound "/tmp/empty")) /\
  trace (start Demo.empty_directory (Demo.options "ios")) = [].
Proof.
  split; [reflexivity|].
  pose proof (start_throws_without_config_file
                Demo.empty_directory (Demo.options "ios") eq_refl)
    as (Hthrown & Hnothing & _).
  split; [exact Hthrown | exact Hnothing].
Defined.

Lemma adb_failure_does_not_stop_listen_witness :
  serves Demo.project (Demo.options "android") tt Demo.configs Demo.platforms tt tt /\
  platform (Demo.options "android") = "android" /\
  exec Demo.project "/opt/android-sdk/platform-tools/adb reverse tcp:8081 tcp:8081"
    = Threw (Foreign "error: no devices/emulators found") /\
  outcome (start Demo.project (Demo.options "android")) = Returned tt /\
  In (Listen tt 8081 "127.0.0.1"
             (Listening (Config "./index.android.js") (Demo.options "android")))
     (trace (start Demo.project (Demo.options "android"))).
Proof.
  assert (Hserves : serves Demo.project (Demo.options "android") tt
                           Demo.configs Demo.platforms tt tt)
    by (repeat split; reflexivity).
  split; [exact Hserves|]. split; [reflexivity|]. split; [reflexivity|].
  pose proof (adb_failure_does_not_stop_listen
                Demo.project (Demo.options "android") tt Demo.configs Demo.platforms
                tt tt Hserves eq_refl)
    as (_ & Houtcome & Hlisten & _).
  split; [exact Houtcome | exact Hlisten].
Defined.

Lemma adb_command_is_reverse_tcp_witness :
  serves Demo.project Custom.android_on_3000 tt Demo.configs Demo.platforms tt tt /\
  platform Custom.android_on_3000 = "android" /\
  - 2 ^ 53 < port Custom.android_on_3000 < 2 ^ 53 /\
  ANDROID_HOME Demo.project = Some "/opt/android-sdk" /\
  "/opt/android-sdk" <> "" /\
  adb_args Custom.android_on_3000 = "reverse tcp:3000 tcp:3000" /\
  forall command,
    In (Exec command) (trace (start Demo.project Custom.android_on_3000)) <->
    command = "/opt/android-sdk/platform-tools/adb reverse tcp:3000 tcp:3000".
Proof.
  assert (Hserves : serves Demo.project Custom.android_on_3000 tt
                           Demo.configs Demo.platforms tt tt)
    by (repeat split; reflexivity).
  assert (Hsafe : - 2 ^ 53 < port Custom.android_on_3000 < 2 ^ 53)
    by (split; reflexivity).
  assert (Hnonempty : "/opt/android-sdk" <> "") by discriminate.
  split; [exact Hserves|]. split; [reflexivity|]. split; [exact Hsafe|].
  split; [reflexivity|]. split; [exact Hnonempty|].
  destruct (adb_command_is_reverse_tcp
              Demo.project Custom.android_on_3000 tt
              Demo.configs Demo.platforms tt tt Hserves eq_refl Hsafe)
    as (P & _ & Hunique & Hargs & _ & Hsdk).
  rewrite <- (Hunique "3000" eq_refl) in Hargs, Hsdk.
  split; [exact Hargs|].
  exact (Hsdk "/opt/android-sdk" eq_refl Hnonempty).
Defined.

Lemma listening_logs_startup_summary_witness :
  serves Demo.project (Demo.options "all") tt Demo.configs Demo.platforms tt tt /\
  In (Listen tt 8081 "127.0.0.1"
             (Listening (Configs Demo.configs) (Demo.options "all")))
     (trace (start Demo.project (Demo.options "all"))) /\
  invoke (RawConfig := unit) (Compiler := unit) (App := unit) (Thrown := string)
         Demo.entry Demo.hasErrors
         (Listening (select Demo.configs Demo.platforms (Demo.options "all"))
                    (Demo.options "all")) tt =
  ([Log info (initialStartInformation ["./index.ios.js"; "./index.android.js"]
                                      "127.0.0.1" 8081)],
   Returned tt).
Proof.
  assert (Hserves : serves Demo.project (Demo.options "all") tt
                           Demo.configs Demo.platforms tt tt)
    by (repeat split; reflexivity).
  split; [exact Hserves|].
  pose proof (listening_logs_startup_summary
                Demo.entry Demo.hasErrors Demo.project (Demo.options "all") tt
                Demo.configs Demo.platforms tt tt Hserves)
    as (Hlisten & _ & _ & Htwo).
  split; [exact Hlisten|].
  exact (Htwo "./index.ios.js" "./index.android.js" eq_refl eq_refl).
Defined.

Lemma exec_only_for_android_witness :
  In (Exec "/opt/android-sdk/platform-tools/adb reverse tcp:8081 tcp:8081")
     (trace (start Demo.project (Demo.options "android"))) /\
  platform (Demo.options "android") = "android" /\
  platform (Demo.options "all") = "all" /\
  forall command,
    ~ In (Exec command) (trace (start Demo.project (Demo.options "all"))).
Proof.
  assert (Hexec : In (Exec "/opt/android-sdk/platform-tools/adb reverse tcp:8081 tcp:8081")
                     (trace (start Demo.project (Demo.options "android"))))
    by (simpl; auto 10).
  split; [exact Hexec|].
  split; [exact (proj1 (exec_only_for_android Demo.project (Demo.options "android"))
                       _ Hexec)|].
  split; [reflexivity|].
  exact (proj2 (exec_only_for_android Demo.project (Demo.options "all")) eq_refl).
Defined.

(** * Further properties of the launcher *)

(** ** Paths *)

Lemma append_length (s t : string) :
  String.length (s ++ t)%string = (String.length s + String.length t)%nat.
Proof. induction s as [|c s IH]; simpl; [reflexivity | now rewrite IH]. Qed.

(** Whatever precedes the last separator does not matter. *)
Lemma after_last_slash_app (s t acc : string) :
  Posix.after_last_slash (s ++ String "/" t)%string acc =
  Posix.after_last_slash t EmptyString.
Proof.
  revert acc. induction s as [|c s IH]; intros acc; simpl; [reflexivity|].
  destruct (Ascii.eqb c "/"); apply IH.
Qed.

Lemma basename_sdk_home (home : string) :
  Posix.basename (home ++ "/platform-tools/adb")%string = "adb".
Proof.
  unfold Posix.basename.
  change (home ++ "/platform-tools/adb")%string
    with (home ++ String "/" "platform-tools/adb")%string.
  rewrite after_last_slash_app. reflexivity.
Qed.

Section LauncherRuns.

Context {RawConfig PlatformConfig Entry Compiler App Stats Thrown : Type}.
Variable entry : PlatformConfig -> Entry.
Variable hasErrors : Stats -> bool.
Variable h : @Host RawConfig PlatformConfig Entry Compiler App Stats Thrown.

Local Abbreviation command_line opts :=
  (adb_path h ++ " " ++ adb_args opts)%string.
Local Abbreviation command_name opts :=
  (basename h (adb_path h) ++ " " ++ adb_args opts)%string.
Local Abbreviation call :=
  (@invoke RawConfig PlatformConfig Entry Compiler App Stats Thrown entry hasErrors).
Local Abbreviation loaded_events opts raw config platforms :=
  [ Require (configPath h);
    MakeReactNativeConfig raw (cwd h) (dev opts) (minify opts);
    Clear;
    Webpack (select config platforms opts) ].

Lemma start_require_threw (opts : LaunchOptions) (e : Exn) :
  existsSync h (configPath h) = true ->
  require h (configPath h) = Threw e ->
  start h opts = ([Require (configPath h)], Threw e).
Proof.
  intros Hexists Hrequire. unfold start. fold (configPath h).
  rewrite Hexists. simpl. now rewrite Hrequire.
Qed.

Lemma start_make_threw (opts : LaunchOptions) (raw : RawConfig) (e : Exn) :
  existsSync h (configPath h) = true ->
  require h (configPath h) = Returned raw ->
  makeReactNativeConfig h raw (cwd h) (dev opts) (minify opts) = Threw e ->
  start h opts =
  ([ Require (configPath h);
     MakeReactNativeConfig raw (cwd h) (dev opts) (minify opts) ],
   Threw e).
Proof.
  intros Hexists Hrequire Hmake. unfold start. fold (configPath h).
  rewrite Hexists. simpl. rewrite Hrequire, Hmake. reflexivity.
Qed.

(** Case analysis on how far a run gets: the six ways [start] can end. *)
Lemma start_inversion (opts : LaunchOptions) (P : M unit -> Prop) :
  (existsSync h (configPath h) = false ->
   P ([], Threw (MessageError (webpackConfigNotFound (cwd h))))) ->
  (forall e,
      existsSync h (configPath h) = true ->
      require h (configPath h) = Threw e ->
      P ([Require (configPath h)], Threw e)) ->
  (forall raw e,
      existsSync h (configPath h) = true ->
      require h (configPath h) = Returned raw ->
      makeReactNativeConfig h raw (cwd h) (dev opts) (minify opts) = Threw e ->
      P ([ Require (configPath h);
           MakeReactNativeConfig raw (cwd h) (dev opts) (minify opts) ],
         Threw e)) ->
  (forall raw config platforms e,
      loads h opts raw config platforms ->
      webpack h (select config platforms opts) = Threw e ->
      P (loaded_events opts raw config platforms, Threw e)) ->
  (forall raw config platforms compiler e,
      loads h opts raw config platforms ->
      webpack h (select config platforms opts) = Returned compiler ->
      createServer h compiler BuildStarted (BuildFinished opts) = Threw e ->
      P (loaded_events opts raw config platforms
           ++ [CreateServer compiler BuildStarted (BuildFinished opts)],
         Threw e)) ->
  (forall raw config platforms compiler app,
      serves h opts raw config platforms compiler app ->
      P (loaded_events opts raw config platforms
           ++ [CreateServer compiler BuildStarted (BuildFinished opts)]
           ++ trace (adb_reverse h opts)
           ++ [Listen app (port opts) (host opts)
                      (Listening (select config platforms opts) opts)],
         listen h app (port opts) (host opts)
                (Listening (select config platforms opts) opts))) ->
  P (start h opts).
Proof.
  intros Hmissing Hrequire Hmake Hwebpack Hserver Hserved.
  destruct (existsSync h (configPath h)) eqn:Hexists.
  2: { rewrite (start_missing h opts Hexists). now apply Hmissing. }
  destruct (require h (configPath h)) as [raw|e] eqn:Hreq.
  2: { rewrite (start_require_threw opts e Hexists Hreq). now apply Hrequire. }
  destruct (makeReactNativeConfig h raw (cwd h) (dev opts) (minify opts))
    as [[config platforms]|e] eqn:Hmk.
  2: { rewrite (start_make_threw opts raw e Hexists Hreq Hmk). now apply Hmake. }
  assert (Hloads : loads h opts raw config platforms) by (repeat split; assumption).
  rewrite (start_loaded h opts raw config platforms Hloads). cbv zeta.
  destruct (webpack h (select config platforms opts)) as [compiler|e] eqn:Hwp.
  2: { now apply (Hwebpack raw config platforms e). }
  destruct (createServer h compiler BuildStarted (BuildFinished opts))
    as [app|e] eqn:Hcs.
  2: { now apply (Hserver raw config platforms compiler e). }
  apply (Hserved raw config platforms compiler app). repeat split; assumption.
Qed.

(** Membership in an explicit trace, one alternative per goal; the
    alternatives that equate different events are closed. *)
Ltac split_in H :=
  simpl in H;
  repeat match type of H with
         | _ \/ _ => destruct H as [H|H]
         | In _ (_ ++ _) => apply in_app_or in H; simpl in H
         | False => contradiction
         end;
  try discriminate.

(** What the port-forward step logs. *)
Lemma adb_reverse_logs (opts : LaunchOptions) (l : Level) (m : Message) :
  In (Log l m) (trace (adb_reverse h opts)) ->
  platform opts = "android" /\
  ((l = info /\ m = commandSuccess (command_name opts) /\
    exec h (command_line opts) = Returned tt) \/
   (l = warn /\ exists e, m = commandFailed (command_name opts) e /\
                          exec h (command_line opts) = Threw e)).
Proof.
  destruct (string_dec (platform opts) "android") as [Ha|Ha].
  - rewrite (adb_reverse_android h _ Ha). intros Hin. split; [exact Ha|].
    destruct Hin as [Hin|[Hin|[]]]; [discriminate|].
    destruct (exec h (command_line opts)) as [[]|e]; injection Hin as <- <-.
    + left. auto.
    + right. split; [reflexivity|]. exists e. auto.
  - rewrite (adb_reverse_other h _ Ha). simpl. contradiction.
Qed.

(** X1. An exception thrown while the configuration is loaded, by
    [require] or by [makeReactNativeConfig], leaves [start] as it is; the
    screen has not been cleared and [webpack], [createServer], [exec] and
    [listen] have not been called. *)
Theorem config_load_failure_propagates (opts : LaunchOptions) :
  existsSync h (join h (cwd h) "webpack.haul.js") = true ->
  (forall e,
      require h (join h (cwd h) "webpack.haul.js") = Threw e ->
      start h opts = ([Require (join h (cwd h) "webpack.haul.js")], Threw e)) /\
  (forall raw e,
      require h (join h (cwd h) "webpack.haul.js") = Returned raw ->
      makeReactNativeConfig h raw (cwd h) (dev opts) (minify opts) = Threw e ->
      start h opts =
      ([ Require (join h (cwd h) "webpack.haul.js");
         MakeReactNativeConfig raw (cwd h) (dev opts) (minify opts) ],
       Threw e)).
Proof.
  intros Hexists. split.
  - intros e Hrequire. exact (start_require_threw opts e Hexists Hrequire).
  - intros raw e Hrequire Hmake.
    exact (start_make_threw opts raw e Hexists Hrequire Hmake).
Qed.

(** X2. An exception thrown by [webpack] or by [createServer] leaves
    [start] as it is, and the launch stops there: no port-forward command
    is executed, on Android either, and [listen] is not called. *)
Theorem build_failure_propagates opts raw config platforms :
  loads h opts raw config platforms ->
  (forall e,
      webpack h (select config platforms opts) = Threw e ->
      start h opts = (loaded_events opts raw config platforms, Threw e)) /\
  (forall compiler e,
      webpack h (select config platforms opts) = Returned compiler ->
      createServer h compiler BuildStarted (BuildFinished opts) = Threw e ->
      start h opts =
      (loaded_events opts raw config platforms
         ++ [CreateServer compiler BuildStarted (BuildFinished opts)],
       Threw e)).
Proof.
  intros Hloads. split.
  - intros e Hwebpack. rewrite (start_loaded h _ _ _ _ Hloads). cbv zeta.
    now rewrite Hwebpack.
  - intros compiler e Hwebpack Hserver.
    rewrite (start_loaded h _ _ _ _ Hloads). cbv zeta.
    now rewrite Hwebpack, Hserver.
Qed.

(** X3. [start] returns normally exactly when the configuration was
    loaded, [webpack] and [createServer] returned, and [listen] returned:
    the promise resolves only once the server has been told to listen. *)
Theorem start_returns_iff_listen_returns (opts : LaunchOptions) :
  outcome (start h opts) = Returned tt <->
  exists raw config platforms compiler app,
    serves h opts raw config platforms compiler app /\
    listen h app (port opts) (host opts)
           (Listening (select config platforms opts) opts) = Returned tt.
Proof.
  split.
  - pattern (start h opts). apply start_inversion; simpl; try discriminate.
    intros raw config platforms compiler app Hserves Hlisten.
    exists raw, config, platforms, compiler, app. auto.
  - intros (raw & config & platforms & compiler & app & Hserves & Hlisten).
    rewrite (start_served h _ _ _ _ _ _ Hserves). exact Hlisten.
Qed.

(** X4. Whatever [start] throws is either its own [MessageError] for the
    missing configuration file or, unchanged, what [require],
    [makeReactNativeConfig], [webpack], [createServer] or [listen] threw. *)
Theorem start_throws_unwrapped (opts : LaunchOptions) (e : Exn) :
  outcome (start h opts) = Threw e ->
  (existsSync h (configPath h) = false /\
   e = MessageError (webpackConfigNotFound (cwd h))) \/
  require h (configPath h) = Threw e \/
  (exists raw,
      makeReactNativeConfig h raw (cwd h) (dev opts) (minify opts) = Threw e) \/
  (exists passed, webpack h passed = Threw e) \/
  (exists compiler,
      createServer h compiler BuildStarted (BuildFinished opts) = Threw e) \/
  (exists app passed,
      listen h app (port opts) (host opts) (Listening passed opts) = Threw e).
Proof.
  pattern (start h opts). apply start_inversion; simpl.
  - intros Hmissing [= <-]. left. auto.
  - intros e' _ Hrequire [= <-]. right. left. exact Hrequire.
  - intros raw e' _ _ Hmake [= <-]. do 2 right. left. eauto.
  - intros raw config platforms e' _ Hwebpack [= <-]. do 3 right. left. eauto.
  - intros raw config platforms compiler e' _ _ Hserver [= <-].
    do 4 right. left. eauto.
  - intros raw config platforms compiler app _ Hlisten. do 5 right. eauto.
Qed.

(** The port-forward step performs nothing but its command and one log. *)
Ltac not_from_adb H :=
  apply adb_reverse_events in H;
  destruct H as (_ & [H|(? & ? & H)]); discriminate.

(** X5. [makeReactNativeConfig] is called only on the module that
    [require] returned for the configuration file, with the working
    directory as [root] and the [dev] and [minify] flags of the options,
    unchanged. *)
Theorem makeReactNativeConfig_receives_options opts raw root d m :
  In (MakeReactNativeConfig raw root d m) (trace (start h opts)) ->
  existsSync h (configPath h) = true /\
  require h (configPath h) = Returned raw /\
  root = cwd h /\ d = dev opts /\ m = minify opts.
Proof.
  pattern (start h opts). apply start_inversion.
  - intros _ Hin. split_in Hin.
  - intros e _ _ Hin. split_in Hin.
  - intros raw' e Hexists Hrequire _ Hin. split_in Hin.
    injection Hin as <- <- <- <-. auto.
  - intros raw' config platforms e (Hexists & Hrequire & _) _ Hin. split_in Hin.
    injection Hin as <- <- <- <-. auto.
  - intros raw' config platforms compiler e (Hexists & Hrequire & _) _ _ Hin.
    split_in Hin. injection Hin as <- <- <- <-. auto.
  - intros raw' config platforms compiler app ((Hexists & Hrequire & _) & _) Hin.
    split_in Hin.
    + injection Hin as <- <- <- <-. auto.
    + not_from_adb Hin.
Qed.

(** X6. The screen is cleared by [start] only once the configuration is
    loaded, exactly once, and before [webpack] is called. *)
Theorem screen_cleared_once_before_webpack (opts : LaunchOptions) :
  In Clear (trace (start h opts)) ->
  exists raw config platforms after,
    loads h opts raw config platforms /\
    trace (start h opts) =
      [ Require (configPath h);
        MakeReactNativeConfig raw (cwd h) (dev opts) (minify opts);
        Clear;
        Webpack (select config platforms opts) ] ++ after /\
    ~ In Clear after.
Proof.
  pattern (start h opts). apply start_inversion.
  - intros _ Hin. split_in Hin.
  - intros e _ _ Hin. split_in Hin.
  - intros raw e _ _ _ Hin. split_in Hin.
  - intros raw config platforms e Hloads _ _.
    exists raw, config, platforms, [].
    split; [exact Hloads|]. split; [reflexivity|]. simpl. auto.
  - intros raw config platforms compiler e Hloads _ _ _.
    exists raw, config, platforms,
      [CreateServer compiler BuildStarted (BuildFinished opts)].
    split; [exact Hloads|]. split; [reflexivity|].
    intros Hin. split_in Hin.
  - intros raw config platforms compiler app Hserves _.
    exists raw, config, platforms,
      ([CreateServer compiler BuildStarted (BuildFinished opts)]
         ++ trace (adb_reverse h opts)
         ++ [Listen app (port opts) (host opts)
                    (Listening (select config platforms opts) opts)]).
    split; [exact (proj1 Hserves)|]. split; [reflexivity|].
    intros Hin. split_in Hin. not_from_adb Hin.
Qed.

(** X7. The build-start callback clears the screen and then logs one
    [bundleBuilding] message: at warning level exactly when the previous
    build had issues, at information level otherwise, never as an error. *)
Theorem onBuildStart_warns_iff_issues (didHaveIssues : bool) :
  call BuildStarted didHaveIssues =
    ([ Clear;
       Log (if didHaveIssues then warn else info) (bundleBuilding didHaveIssues) ],
     Returned tt) /\
  ((exists m, In (Log warn m) (trace (call BuildStarted didHaveIssues))) <->
   didHaveIssues = true) /\
  ((exists m, In (Log info m) (trace (call BuildStarted didHaveIssues))) <->
   didHaveIssues = false) /\
  (forall m, ~ In (Log error m) (trace (call BuildStarted didHaveIssues))).
Proof.
  destruct didHaveIssues; simpl.
  - repeat split; eauto.
    + intros (m & Hin). split_in Hin.
    + discriminate.
    + intros m Hin. split_in Hin.
  - repeat split; eauto.
    + intros (m & Hin). split_in Hin.
    + discriminate.
    + intros m Hin. split_in Hin.
Qed.

(** X8. On Android, when [exec] succeeds, the run is the five launch
    events, the command, one information [commandSuccess] naming the
    command, and the listen call, whose outcome is the outcome of [start]. *)
Theorem adb_success_is_logged_then_listen opts raw config platforms compiler app :
  serves h opts raw config platforms compiler app ->
  platform opts = "android" ->
  exec h (command_line opts) = Returned tt ->
  start h opts =
  ([ Require (configPath h);
     MakeReactNativeConfig raw (cwd h) (dev opts) (minify opts);
     Clear;
     Webpack (select config platforms opts);
     CreateServer compiler BuildStarted (BuildFinished opts);
     Exec (command_line opts);
     Log info (commandSuccess (command_name opts));
     Listen app (port opts) (host opts)
            (Listening (select config platforms opts) opts) ],
   listen h app (port opts) (host opts)
          (Listening (select config platforms opts) opts)).
Proof.
  intros Hserves Handroid Hexec.
  rewrite (start_served h _ _ _ _ _ _ Hserves).
  rewrite (adb_reverse_android h _ Handroid). now rewrite Hexec.
Qed.

(** Only the port-forward step logs. *)
Lemma start_log_from_adb (opts : LaunchOptions) (l : Level) (m : Message) :
  In (Log l m) (trace (start h opts)) ->
  In (Log l m) (trace (adb_reverse h opts)).
Proof.
  pattern (start h opts). apply start_inversion.
  - intros _ Hin. split_in Hin.
  - intros e _ _ Hin. split_in Hin.
  - intros raw e _ _ _ Hin. split_in Hin.
  - intros raw config platforms e _ _ Hin. split_in Hin.
  - intros raw config platforms compiler e _ _ _ Hin. split_in Hin.
  - intros raw config platforms compiler app _ Hin. split_in Hin. exact Hin.
Qed.

(** X9. [start] itself logs nothing unless the platform is ["android"],
    and then only the result of the port-forward command: an information
    [commandSuccess] when [exec] returned, a warning [commandFailed] with
    the error when it threw.  It never logs at error or done level. *)
Theorem start_logs_only_adb_result (opts : LaunchOptions) (l : Level) (m : Message) :
  In (Log l m) (trace (start h opts)) ->
  platform opts = "android" /\
  ((l = info /\ m = commandSuccess (command_name opts) /\
    exec h (command_line opts) = Returned tt) \/
   (l = warn /\ exists e, m = commandFailed (command_name opts) e /\
                          exec h (command_line opts) = Threw e)).
Proof.
  intros Hin. apply start_log_from_adb in Hin. now apply adb_reverse_logs.
Qed.

(** X10. Where [path.basename] is the POSIX one on the adb path, the
    command named in the log is the bare ["adb reverse tcp:P tcp:P"],
    wherever [ANDROID_HOME] points: the directory of the SDK is used to run
    the command and left out of what is reported. *)
Theorem logged_command_names_bare_adb (opts : LaunchOptions) :
  basename h (adb_path h) = Posix.basename (adb_path h) ->
  basename h (adb_path h) = "adb" /\
  forall l m,
    In (Log l m) (trace (start h opts)) ->
    m = commandSuccess
          ("adb reverse tcp:" ++ Js.String_of_number (port opts)
             ++ " tcp:" ++ Js.String_of_number (port opts))%string \/
    exists e,
      m = commandFailed
            ("adb reverse tcp:" ++ Js.String_of_number (port opts)
               ++ " tcp:" ++ Js.String_of_number (port opts))%string e.
Proof.
  intros Hposix.
  assert (Hadb : basename h (adb_path h) = "adb").
  { rewrite Hposix. unfold adb_path.
    destruct (ANDROID_HOME h) as [home|]; simpl; [|reflexivity].
    destruct (String.eqb home ""); simpl; [reflexivity|].
    apply basename_sdk_home. }
  split; [exact Hadb|].
  intros l m Hin. apply start_log_from_adb, adb_reverse_logs in Hin.
  destruct Hin as (_ & [(_ & -> & _)|(_ & e & -> & _)]); rewrite Hadb.
  - left. reflexivity.
  - right. exists e. reflexivity.
Qed.

(** X11. The command is the bare ["adb"], looked up on the execution
    path, exactly when [ANDROID_HOME] is unset or empty. *)
Theorem adb_path_bare_iff_no_sdk_home :
  adb_path h = "adb" <->
  ANDROID_HOME h = None \/ ANDROID_HOME h = Some "".
Proof.
  unfold adb_path. destruct (ANDROID_HOME h) as [home|]; simpl.
  - destruct (String.eqb_spec home "") as [->|Hne]; simpl.
    + split; auto.
    + split.
      * intros Heq. apply (f_equal String.length) in Heq.
        rewrite append_length in Heq. simpl in Heq. lia.
      * intros [H|H]; congruence.
  - split; auto.
Qed.

(** X12. The callback handed to [listen] holds the very value that was
    passed to [webpack], together with the options of the run: the startup
    summary reports the entries of what is being compiled, on the port and
    host the server listens on. *)
Theorem listen_callback_holds_compiled_config opts passed app p hst cb :
  In (Webpack passed) (trace (start h opts)) ->
  In (Listen app p hst cb) (trace (start h opts)) ->
  cb = Listening passed opts /\ p = port opts /\ hst = host opts.
Proof.
  pattern (start h opts). apply start_inversion.
  - intros _ _ Hin. split_in Hin.
  - intros e _ _ _ Hin. split_in Hin.
  - intros raw e _ _ _ _ Hin. split_in Hin.
  - intros raw config platforms e _ _ _ Hin. split_in Hin.
  - intros raw config platforms compiler e _ _ _ _ Hin. split_in Hin.
  - intros raw config platforms compiler app' _ Hpassed Hin.
    split_in Hpassed; [|not_from_adb Hpassed]. injection Hpassed as <-.
    split_in Hin; [not_from_adb Hin|]. injection Hin as <- <- <- <-. auto.
Qed.

(** X13. [createServer] is called only on a compiler that [webpack]
    returned in this run, with the build-start arrow and the
    build-completion arrow that reads the options of the run. *)
Theorem createServer_receives_webpack_compiler opts compiler f g :
  In (CreateServer compiler f g) (trace (start h opts)) ->
  f = BuildStarted /\ g = BuildFinished opts /\
  exists passed,
    In (Webpack passed) (trace (start h opts)) /\
    webpack h passed = Returned compiler.
Proof.
  pattern (start h opts). apply start_inversion.
  - intros _ Hin. split_in Hin.
  - intros e _ _ Hin. split_in Hin.
  - intros raw e _ _ _ Hin. split_in Hin.
  - intros raw config platforms e _ _ Hin. split_in Hin.
  - intros raw config platforms compiler' e _ Hwebpack _ Hin. split_in Hin.
    injection Hin as <- <- <-. repeat split.
    exists (select config platforms opts). split; [simpl; auto 6 | exact Hwebpack].
  - intros raw config platforms compiler' app (_ & Hwebpack & _) Hin. split_in Hin.
    + injection Hin as <- <- <-. repeat split.
      exists (select config platforms opts). split; [simpl; auto 6 | exact Hwebpack].
    + not_from_adb Hin.
Qed.

(** X14. A single configuration reaches [webpack] only when the platform
    is not ["all"] and occurs in the platform list, and it is then the
    element of the array at the platform's index. *)
Theorem single_config_comes_from_array opts raw config platforms c :
  loads h opts raw config platforms ->
  In (Webpack (Config c)) (trace (start h opts)) ->
  platform opts <> "all" /\
  In (platform opts) platforms /\
  Js.get config (Js.indexOf platforms (platform opts)) = Some c /\
  In c config.
Proof.
  intros Hloads Hin. apply (start_webpack_once h _ _ _ _ _ Hloads) in Hin.
  unfold select in Hin.
  destruct (String.eqb_spec (platform opts) "all") as [Hall|Hall]; simpl in Hin;
    [discriminate|].
  destruct (Js.includes platforms (platform opts)) eqn:Hinc; [|discriminate].
  apply includes_In in Hinc. unfold config_at in Hin.
  destruct (Js.get config (Js.indexOf platforms (platform opts))) as [c'|] eqn:Hget;
    [|discriminate].
  injection Hin as ->. repeat split; auto.
  unfold Js.get in Hget.
  destruct (Js.indexOf platforms (platform opts) <? 0); [discriminate|].
  now apply nth_error_In in Hget.
Qed.

(** X15. [undefined] reaches [webpack] only when the array of
    configurations is shorter than the platform list, the platform's index
    lying outside it; the listen callback would then throw instead of
    logging the summary. *)
Theorem undefined_config_only_when_array_short opts raw config platforms :
  loads h opts raw config platforms ->
  In (Webpack Undefined) (trace (start h opts)) ->
  platform opts <> "all" /\
  In (platform opts) platforms /\
  Z.of_nat (length config) <= Js.indexOf platforms (platform opts) /\
  (length config < length platforms)%nat /\
  call (Listening (select config platforms opts) opts) tt = ([], Threw TypeError).
Proof.
  intros Hloads Hin. apply (start_webpack_once h _ _ _ _ _ Hloads) in Hin.
  assert (Hsel := Hin). unfold select in Hin.
  destruct (String.eqb_spec (platform opts) "all") as [Hall|Hall]; simpl in Hin;
    [discriminate|].
  destruct (Js.includes platforms (platform opts)) eqn:Hinc; [|discriminate].
  apply includes_In in Hinc.
  destruct (indexOf_first platforms (platform opts) Hinc)
    as (i & Hidx & Hlen & _).
  unfold config_at in Hin. rewrite Hidx, get_of_nat in Hin.
  destruct (nth_error config i) eqn:Hnth; [discriminate|].
  apply nth_error_None in Hnth.
  repeat split; auto; try lia.
  now rewrite <- Hsel.
Qed.

(** X16. [listen] is called at most once, as the last step of [start],
    on the port and host of the options; how it ends is how [start] ends. *)
Theorem listen_is_last_step opts app p hst cb :
  In (Listen app p hst cb) (trace (start h opts)) ->
  p = port opts /\ hst = host opts /\
  outcome (start h opts) = listen h app p hst cb /\
  exists before,
    trace (start h opts) = before ++ [Listen app p hst cb] /\
    forall app' p' hst' cb', ~ In (Listen app' p' hst' cb') before.
Proof.
  pattern (start h opts). apply start_inversion.
  - intros _ Hin. split_in Hin.
  - intros e _ _ Hin. split_in Hin.
  - intros raw e _ _ _ Hin. split_in Hin.
  - intros raw config platforms e _ _ Hin. split_in Hin.
  - intros raw config platforms compiler e _ _ _ Hin. split_in Hin.
  - intros raw config platforms compiler app' _ Hin.
    split_in Hin; [not_from_adb Hin|]. injection Hin as <- <- <- <-.
    repeat split.
    exists (loaded_events opts raw config platforms
              ++ [CreateServer compiler BuildStarted (BuildFinished opts)]
              ++ trace (adb_reverse h opts)).
    split.
    + unfold trace. simpl. reflexivity.
    + intros app'' p' hst' cb' Hin. split_in Hin. not_from_adb Hin.
Qed.

End LauncherRuns.

(** ** The flag options *)

(** X17. For [dev] and [minify], the default is always one of the
    declared choices, whatever [dev] resolved to, and each declared choice
    is parsed to the boolean it spells. *)
Theorem flag_defaults_are_choices :
  (forall resolved_dev : bool,
      In (Options.default_value Options.dev resolved_dev)
         (map Options.value (Options.choices Options.dev)) /\
      In (Options.default_value Options.minify resolved_dev)
         (map Options.value (Options.choices Options.minify))) /\
  (forall o c,
      In o [Options.dev; Options.minify] ->
      In c (Options.choices o) ->
      Js.String_of_bool (Options.parse o (Options.value c)) = Options.value c).
Proof.
  split.
  - intros []; simpl; auto.
  - intros o c Ho Hc. simpl in Ho.
    destruct Ho as [<-|[<-|[]]]; simpl in Hc;
      destruct Hc as [<-|[<-|[]]]; reflexivity.
Qed.

(** X18. When only [--dev] is supplied, minification defaults to on
    exactly when the string supplied is ["false"]: any other spelling
    leaves development mode on and minification off. *)
Theorem minify_default_follows_dev_string (supplied : string) :
  Options.parse Options.minify
    (Options.default_value Options.minify (Options.parse Options.dev supplied))
  = String.eqb supplied "false".
Proof.
  simpl. unfold Options.not_false.
  destruct (String.eqb supplied "false"); reflexivity.
Qed.

(** ** The further properties at work on concrete hosts *)

Lemma config_load_failure_propagates_witness :
  existsSync (Faults.broken_at Faults.AtRequire)
             (join (Faults.broken_at Faults.AtRequire)
                   (cwd (Faults.broken_at Faults.AtRequire)) "webpack.haul.js")
    = true /\
  start (Faults.broken_at Faults.AtRequire) (Demo.options "ios") =
    ([Require "/home/dev/app/webpack.haul.js"], Threw (Foreign "boom")) /\
  start (Faults.broken_at Faults.AtMakeReactNativeConfig) (Demo.options "ios") =
    ([ Require "/home/dev/app/webpack.haul.js";
       MakeReactNativeConfig tt "/home/dev/app" true false ],
     Threw (Foreign "boom")).
Proof.
  split; [reflexivity|]. split.
  - exact (proj1 (config_load_failure_propagates
                    (Faults.broken_at Faults.AtRequire) (Demo.options "ios") eq_refl)
                 (Foreign "boom") eq_refl).
  - exact (proj2 (config_load_failure_propagates
                    (Faults.broken_at Faults.AtMakeReactNativeConfig)
                    (Demo.options "ios") eq_refl)
                 tt (Foreign "boom") eq_refl eq_refl).
Defined.

Lemma build_failure_propagates_witness :
  loads (Faults.broken_at Faults.AtCreateServer) (Demo.options "android") tt
        Demo.configs Demo.platforms /\
  start (Faults.broken_at Faults.AtCreateServer) (Demo.options "android") =
    ([ Require "/home/dev/app/webpack.haul.js";
       MakeReactNativeConfig tt "/home/dev/app" true false;
       Clear;
       Webpack (Config "./index.android.js");
       CreateServer tt BuildStarted (BuildFinished (Demo.options "android")) ],
     Threw (Foreign "boom")) /\
  start (Faults.broken_at Faults.AtWebpack) (Demo.options "android") =
    ([ Require "/home/dev/app/webpack.haul.js";
       MakeReactNativeConfig tt "/home/dev/app" true false;
       Clear;
       Webpack (Config "./index.android.js") ],
     Threw (Foreign "boom")).
Proof.
  assert (Hserver : loads (Faults.broken_at Faults.AtCreateServer)
                          (Demo.options "android") tt Demo.configs Demo.platforms)
    by (repeat split; reflexivity).
  assert (Hwebpack : loads (Faults.broken_at Faults.AtWebpack)
                           (Demo.options "android") tt Demo.configs Demo.platforms)
    by (repeat split; reflexivity).
  split; [exact Hserver|]. split.
  - exact (proj2 (build_failure_propagates
                    (Faults.broken_at Faults.AtCreateServer) (Demo.options "android")
                    tt Demo.configs Demo.platforms Hserver)
                 tt (Foreign "boom") eq_refl eq_refl).
  - exact (proj1 (build_failure_propagates
                    (Faults.broken_at Faults.AtWebpack) (Demo.options "android")
                    tt Demo.configs Demo.platforms Hwebpack)
                 (Foreign "boom") eq_refl).
Defined.

Lemma start_throws_unwrapped_witness :
  outcome (start (Faults.broken_at Faults.AtListen) (Demo.options "ios"))
    = Threw (Foreign "boom") /\
  exists app passed,
    listen (Faults.broken_at Faults.AtListen) app 8081 "127.0.0.1"
           (Listening passed (Demo.options "ios")) = Threw (Foreign "boom").
Proof.
  split; [reflexivity|].
  destruct (start_throws_unwrapped
              (Faults.broken_at Faults.AtListen) (Demo.options "ios")
              (Foreign "boom") eq_refl)
    as [(Hmissing & _)|[Hrequire|[(raw & Hmake)|[(passed & Hwebpack)
        |[(compiler & Hserver)|Hlisten]]]]].
  - discriminate Hmissing.
  - discriminate Hrequire.
  - discriminate Hmake.
  - discriminate Hwebpack.
  - discriminate Hserver.
  - exact Hlisten.
Defined.

Lemma makeReactNativeConfig_receives_options_witness :
  In (MakeReactNativeConfig tt "/home/dev/app" true false)
     (trace (start Demo.project (Demo.options "ios"))) /\
  require Demo.project (configPath Demo.project) = Returned tt /\
  "/home/dev/app" = cwd Demo.project /\
  true = dev (Demo.options "ios") /\
  false = minify (Demo.options "ios").
Proof.
  assert (Hin : In (MakeReactNativeConfig tt "/home/dev/app" true false)
                   (trace (start Demo.project (Demo.options "ios"))))
    by (simpl; auto).
  split; [exact Hin|].
  exact (proj2 (makeReactNativeConfig_receives_options
                  Demo.project (Demo.options "ios") tt "/home/dev/app" true false Hin)).
Defined.

Lemma screen_cleared_once_before_webpack_witness :
  In Clear (trace (start Demo.project (Demo.options "all"))) /\
  exists raw config platforms after,
    loads Demo.project (Demo.options "all") raw config platforms /\
    trace (start Demo.project (Demo.options "all")) =
      [ Require (configPath Demo.project);
        MakeReactNativeConfig raw (cwd Demo.project) true false;
        Clear;
        Webpack (select config platforms (Demo.options "all")) ] ++ after /\
    ~ In Clear after.
Proof.
  assert (Hin : In Clear (trace (start Demo.project (Demo.options "all"))))
    by (simpl; auto).
  split; [exact Hin|].
  exact (screen_cleared_once_before_webpack Demo.project (Demo.options "all") Hin).
Defined.

Lemma adb_success_is_logged_then_listen_witness :
  serves Demo.project_with_device (Demo.options "android") tt
         Demo.configs Demo.platforms tt tt /\
  platform (Demo.options "android") = "android" /\
  exec Demo.project_with_device "adb reverse tcp:8081 tcp:8081" = Returned tt /\
  start Demo.project_with_device (Demo.options "android") =
    ([ Require "/home/dev/app/webpack.haul.js";
       MakeReactNativeConfig tt "/home/dev/app" true false;
       Clear;
       Webpack (Config "./index.android.js");
       CreateServer tt BuildStarted (BuildFinished (Demo.options "android"));
       Exec "adb reverse tcp:8081 tcp:8081";
       Log info (commandSuccess "adb reverse tcp:8081 tcp:8081");
       Listen tt 8081 "127.0.0.1"
              (Listening (Config "./index.android.js") (Demo.options "android")) ],
     Returned tt).
Proof.
  assert (Hserves : serves Demo.project_with_device (Demo.options "android") tt
                           Demo.configs Demo.platforms tt tt)
    by (repeat split; reflexivity).
  split; [exact Hserves|]. split; [reflexivity|]. split; [reflexivity|].
  exact (adb_success_is_logged_then_listen
           Demo.project_with_device (Demo.options "android") tt
           Demo.configs Demo.platforms tt tt Hserves eq_refl eq_refl).
Defined.

Lemma start_logs_only_adb_result_witness :
  In (Log warn (commandFailed "adb reverse tcp:8081 tcp:8081"
                              (Foreign "error: no devices/emulators found")))
     (trace (start Demo.project (Demo.options "android"))) /\
  platform (Demo.options "android") = "android".
Proof.
  assert (Hin : In (Log warn (commandFailed "adb reverse tcp:8081 tcp:8081"
                                (Foreign "error: no devices/emulators found")))
                   (trace (start Demo.project (Demo.options "android"))))
    by (simpl; auto 10).
  split; [exact Hin|].
  exact (proj1 (start_logs_only_adb_result
                  Demo.project (Demo.options "android") _ _ Hin)).
Defined.

Lemma logged_command_names_bare_adb_witness :
  basename Demo.project (adb_path Demo.project)
    = Posix.basename (adb_path Demo.project) /\
  adb_path Demo.project = "/opt/android-sdk/platform-tools/adb" /\
  basename Demo.project (adb_path Demo.project) = "adb".
Proof.
  split; [reflexivity|]. split; [reflexivity|].
  exact (proj1 (logged_command_names_bare_adb
                  Demo.project (Demo.options "android") eq_refl)).
Defined.

Lemma listen_callback_holds_compiled_config_witness :
  In (Webpack (Config "./index.ios.js"))
     (trace (start Demo.project (Demo.options "ios"))) /\
  In (Listen tt 8081 "127.0.0.1"
             (Listening (Config "./index.ios.js") (Demo.options "ios")))
     (trace (start Demo.project (Demo.options "ios"))) /\
  8081 = port (Demo.options "ios") /\
  "127.0.0.1" = host (Demo.options "ios").
Proof.
  assert (Hpassed : In (Webpack (Config "./index.ios.js"))
                       (trace (start Demo.project (Demo.options "ios"))))
    by (simpl; auto 10).
  assert (Hlisten : In (Listen tt 8081 "127.0.0.1"
                               (Listening (Config "./index.ios.js") (Demo.options "ios")))
                       (trace (start Demo.project (Demo.options "ios"))))
    by (simpl; auto 10).
  split; [exact Hpassed|]. split; [exact Hlisten|].
  exact (proj2 (listen_callback_holds_compiled_config
                  Demo.project (Demo.options "ios") _ _ _ _ _ Hpassed Hlisten)).
Defined.

Lemma createServer_receives_webpack_compiler_witness :
  In (CreateServer tt BuildStarted (BuildFinished (Demo.options "ios")))
     (trace (start Demo.project (Demo.options "ios"))) /\
  exists passed,
    In (Webpack passed) (trace (start Demo.project (Demo.options "ios"))) /\
    webpack Demo.project passed = Returned tt.
Proof.
  assert (Hin : In (CreateServer tt BuildStarted (BuildFinished (Demo.options "ios")))
                   (trace (start Demo.project (Demo.options "ios"))))
    by (simpl; auto 10).
  split; [exact Hin|].
  exact (proj2 (proj2 (createServer_receives_webpack_compiler
                         Demo.project (Demo.options "ios") _ _ _ Hin))).
Defined.

Lemma single_config_comes_from_array_witness :
  loads Demo.project (Demo.options "android") tt Demo.configs Demo.platforms /\
  In (Webpack (Config "./index.android.js"))
     (trace (start Demo.project (Demo.options "android"))) /\
  Js.get Demo.configs (Js.indexOf Demo.platforms "android")
    = Some "./index.android.js" /\
  In "./index.android.js" Demo.configs.
Proof.
  assert (Hloads : loads Demo.project (Demo.options "android") tt
                         Demo.configs Demo.platforms)
    by (repeat split; reflexivity).
  assert (Hin : In (Webpack (Config "./index.android.js"))
                   (trace (start Demo.project (Demo.options "android"))))
    by (simpl; auto 10).
  split; [exact Hloads|]. split; [exact Hin|].
  exact (proj2 (proj2 (single_config_comes_from_array
                         Demo.project (Demo.options "android") tt
                         Demo.configs Demo.platforms _ Hloads Hin))).
Defined.

Lemma undefined_config_only_when_array_short_witness :
  loads Faults.misaligned (Demo.options "android") tt
        ["./index.ios.js"] Demo.platforms /\
  In (Webpack Undefined) (trace (start Faults.misaligned (Demo.options "android"))) /\
  (length ["./index.ios.js"] < length Demo.platforms)%nat.
Proof.
  assert (Hloads : loads Faults.misaligned (Demo.options "android") tt
                         ["./index.ios.js"] Demo.platforms)
    by (repeat split; reflexivity).
  assert (Hin : In (Webpack Undefined)
                   (trace (start Faults.misaligned (Demo.options "android"))))
    by (simpl; auto 10).
  split; [exact Hloads|]. split; [exact Hin|].
  pose proof (undefined_config_only_when_array_short
                Demo.entry Demo.hasErrors Faults.misaligned (Demo.options "android")
                tt ["./index.ios.js"] Demo.platforms Hloads Hin)
    as (_ & _ & _ & Hshort & _).
  exact Hshort.
Defined.

Lemma listen_is_last_step_witness :
  In (Listen tt 8081 "127.0.0.1"
             (Listening (Configs Demo.configs) (Demo.options "all")))
     (trace (start Demo.project (Demo.options "all"))) /\
  8081 = port (Demo.options "all") /\
  "127.0.0.1" = host (Demo.options "all") /\
  outcome (start Demo.project (Demo.options "all")) =
    listen Demo.project tt 8081 "127.0.0.1"
           (Listening (Configs Demo.configs) (Demo.options "all")).
Proof.
  assert (Hin : In (Listen tt 8081 "127.0.0.1"
                           (Listening (Configs Demo.configs) (Demo.options "all")))
                   (trace (start Demo.project (Demo.options "all"))))
    by (simpl; auto 10).
  split; [exact Hin|].
  pose proof (listen_is_last_step Demo.project (Demo.options "all") _ _ _ _ Hin)
    as (Hport & Hhost & Houtcome & _).
  repeat split; assumption.
Defined.
